(** * Catbird headless orchestration scripts: a shallow embedding

    The development embeds the two orchestrator scripts of the repository,

    - [copilot-runner.py]  (module [Runner]: [CopilotTask], [TaskRunner],
      [load_tasks_from_file], the [from-file] and [single] commands), and
    - [parallel-agents.py] (module [Swarm]: [Agent], [AgentSwarm],
      the [quick] and [from-config] commands),

    and states the properties of the orchestration engine over them.

    Conventions.
    - Python [str] is [string]; the model treats a string as its sequence of
      ASCII characters.
    - A Python [dict] used as a result map is a [gmap string bool]; a dict
      that is iterated in insertion order (the loaded task table) is an
      association list.
    - The external tool is an opaque oracle: what the spawned process does
      is a [subprocess.Behaviour] supplied by the environment.
    - Clock readings are integers (milliseconds); how Python renders them
      ([isoformat], [:.2f]) is left uninterpreted.
    - Console output and the run-level text log ([TaskRunner.log],
      [AgentSwarm.log]) carry no data that any function reads back, and are
      not part of the state; the line with which [run_task] reports the
      outcome of a task is kept as a function of its own
      ([Runner.outcome_line]). Per-task log files are part of the state,
      and writing one succeeds.
    - A thread pool completes the submitted calls in an order of its own:
      the schedulers take that order as a parameter [as_completed], and
      the statements about parallel runs hold for every order that is a
      permutation of the submitted list. *)

From Stdlib Require Import ZArith Ascii String.
From stdpp Require Import base option list strings gmap fin_maps pretty.

Local Open Scope Z_scope.

(** ** Python string primitives *)

Module pystr.

Definition nl : string := String "010"%char EmptyString.

(** The ASCII characters on which [str.split()] and [str.strip()] cut:
    TAB, LF, VT, FF, CR, FS, GS, RS, US and the blank. *)
Definition isspace (c : ascii) : bool :=
  let n := nat_of_ascii c in
  ((9 <=? n)%nat && (n <=? 13)%nat) || ((28 <=? n)%nat && (n <=? 32)%nat).

(** [s.split()] with no argument: the maximal runs of non-blank
    characters, in order; [cur] is the word being read, if any. *)
Fixpoint split_from (cur : option string) (s : string) : list string :=
  match s with
  | EmptyString => match cur with Some w => [w] | None => [] end
  | String c s' =>
      if isspace c then
        match cur with
        | Some w => w :: split_from None s'
        | None => split_from None s'
        end
      else
        split_from (Some (default EmptyString cur +:+ String c EmptyString)) s'
  end.

Definition split (s : string) : list string := split_from None s.

Definition startswith (s pre : string) : bool := String.prefix pre s.

(** Truthiness of a string: [if s:]. *)
Definition truthy (s : string) : bool :=
  match s with EmptyString => false | _ => true end.


End pystr.

(** ** The [subprocess] call, as far as the scripts use it *)

Module subprocess.

Inductive Stdin := Inherited | DEVNULL.

(** The keyword arguments the scripts pass to [subprocess.run]. An
    argument that is not passed keeps Python's default: the child
    inherits the parent's standard input and working directory. *)
Record RunArgs := {
  args : list string;
  capture_output : bool;
  text : bool;
  stdin : Stdin;
  timeout : Z;                (* seconds *)
  cwd : option string
}.

(** What the spawned process does, decided by the environment: it exits
    after some time with a return code and its two output streams, it never
    exits, or it cannot be spawned (tool not found, permission denied or
    another failure of the operating system), with the text of the
    exception. *)
Inductive Behaviour :=
| Exits (elapsed_ms : Z) (returncode : Z) (out err : string)
| Hangs
| SpawnFails (msg : string).

Inductive RunResult :=
| CompletedProcess (returncode : Z) (stdout stderr : string)
| TimeoutExpired
| OtherException (msg : string).

(** The process exceeds the timeout of [a]. *)
Definition exceeds (a : RunArgs) (b : Behaviour) : bool :=
  match b with
  | Exits ms _ _ _ => 1000 * timeout a <? ms
  | Hangs => true
  | SpawnFails _ => false
  end.

(** [subprocess.run(args, ..., timeout=t)]: the completed process, or
    [TimeoutExpired] when the process is still running after [t] seconds,
    or the exception of a failed spawn. *)
Definition run (a : RunArgs) (b : Behaviour) : RunResult :=
  match b with
  | SpawnFails msg => OtherException msg
  | Hangs => TimeoutExpired
  | Exits ms rc out err =>
      if 1000 * timeout a <? ms then TimeoutExpired
      else CompletedProcess rc out err
  end.

End subprocess.

(** What the environment contributes to one task execution: the process
    behaviour and the clock readings at the start and at the end. *)
Record Env := {
  proc : subprocess.Behaviour;
  t_start : Z;
  t_end : Z
}.

(** A file written with [open(path, 'w')]: path and full content. *)
Definition FileWrite : Type := string * string.

(** The value of [future.result()]: what the worker returned, or the
    exception it raised. *)
Inductive Future (A : Type) :=
| Returned (a : A)
| Raised (msg : string).
Arguments Returned {A} a.
Arguments Raised {A} msg.

(** The exceptions the scripts raise themselves or let escape, and a
    computation that returns or raises. *)
Inductive exn :=
| KeyError (key : string)
| ValueError (msg : string).

Inductive Exc (A : Type) :=
| Ok (a : A)
| Raise (e : exn).
Arguments Ok {A} a.
Arguments Raise {A} e.

(** [ThreadPoolExecutor(max_workers=n)] refuses a pool without workers. *)
Definition ThreadPoolExecutor (max_workers : Z) : Exc Z :=
  if max_workers <=? 0
  then Raise (ValueError "max_workers must be greater than 0")
  else Ok max_workers.

(** [sum(1 for v in results.values() if v)] *)
Definition count_true (results : gmap string bool) : nat :=
  length (filter (λ kv, kv.2 = true) (map_to_list results)).

(** [all(results.values())] *)
Definition all_values (results : gmap string bool) : bool :=
  forallb (λ kv, kv.2) (map_to_list results).

(** [sys.exit(0 if all(results.values()) else 1)] *)
Definition exit_code (results : gmap string bool) : Z :=
  if all_values results then 0 else 1.

(** ** copilot-runner.py *)

Module Runner.

Record CopilotTask := {
  name : string;
  prompt : string;
  approval : string;
  timeout : Z;
  description : string
}.

(** [CopilotTask.__init__]; an omitted keyword argument is [None]. *)
Definition CopilotTask_init (name prompt : string) (approval : option string)
    (timeout : option Z) (description : option string) : CopilotTask :=
  let d := default EmptyString description in
  {| name := name;
     prompt := prompt;
     approval := default "--allow-all-tools"%string approval;
     timeout := default 120 timeout;
     description := if pystr.truthy d then d else prompt |}.

Record TaskRunner := {
  results_dir : string;
  verbose : bool;
  timestamp : string
}.

(** *** Loading the task document *)

(** One entry of the [tasks] mapping of the document; an absent key is
    [None]. *)
Record TaskData := {
  td_name : option string;
  td_prompt : option string;
  td_approval : option string;
  td_timeout : option Z;
  td_description : option string
}.

(** One entry of the [workflows] mapping. *)
Record WorkflowData := {
  wf_tasks : option (list string);
  wf_mode : option string;
  wf_description : option string
}.

(** The parsed JSON or YAML document; an absent top-level mapping is the
    empty list. The keys of a parsed mapping are pairwise distinct. *)
Record Document := {
  doc_tasks : list (string * TaskData);
  doc_workflows : list (string * WorkflowData)
}.

(** [d[k]] and [k in d] on a dict kept as an association list. *)
Fixpoint assoc {A : Type} (k : string) (d : list (string * A)) : option A :=
  match d with
  | [] => None
  | (k', v) :: d' => if decide (k = k') then Some v else assoc k d'
  end.

(** The loop [for task_id, task_data in data.get('tasks', {}).items()]. *)
Fixpoint parse_tasks (entries : list (string * TaskData))
    : Exc (list (string * CopilotTask)) :=
  match entries with
  | [] => Ok []
  | (task_id, task_data) :: rest =>
      match td_prompt task_data with
      | None => Raise (KeyError "prompt")
      | Some p =>
          let task :=
            CopilotTask_init (default task_id (td_name task_data)) p
              (Some (default "--allow-all-tools"%string (td_approval task_data)))
              (Some (default 120 (td_timeout task_data)))
              (Some (default EmptyString (td_description task_data))) in
          match parse_tasks rest with
          | Ok tasks => Ok ((task_id, task) :: tasks)
          | Raise e => Raise e
          end
      end
  end.

Definition load_tasks_from_file (data : Document)
    : Exc (list (string * CopilotTask) * list (string * WorkflowData)) :=
  match parse_tasks (doc_tasks data) with
  | Ok tasks => Ok (tasks, doc_workflows data)
  | Raise e => Raise e
  end.

(** [[tasks[tid] for tid in ids if tid in tasks]] *)
Definition resolve (tasks : list (string * CopilotTask)) (ids : list string)
    : list CopilotTask :=
  omap (λ tid, assoc tid tasks) ids.

Section WithClock.

(** [datetime.isoformat] of a clock reading. *)
Variable isoformat : Z → string.

Definition task_log (r : TaskRunner) (task : CopilotTask) : string :=
  results_dir r +:+ "/task_" +:+ name task +:+ "_" +:+ timestamp r +:+ ".log".

Definition build_cmd (task : CopilotTask) : list string :=
  ["copilot"; "-p"; prompt task]%string ++ pystr.split (approval task).

(** The [subprocess.run] call of [run_task]. *)
Definition run_task_call (task : CopilotTask) : subprocess.RunArgs :=
  {| subprocess.args := build_cmd task;
     subprocess.capture_output := true;
     subprocess.text := true;
     subprocess.stdin := subprocess.Inherited;
     subprocess.timeout := timeout task;
     subprocess.cwd := None |}.

Definition log_completed (task : CopilotTask) (now : Z)
    (rc : Z) (out err : string) : string :=
  "Task: " +:+ name task +:+ pystr.nl +:+
  "Prompt: " +:+ prompt task +:+ pystr.nl +:+
  "Timestamp: " +:+ isoformat now +:+ pystr.nl +:+
  "Exit Code: " +:+ pretty rc +:+ pystr.nl +:+
  pystr.nl +:+ "=== STDOUT ===" +:+ pystr.nl +:+
  out +:+
  pystr.nl +:+ "=== STDERR ===" +:+ pystr.nl +:+
  err.

Definition log_timeout (task : CopilotTask) (error_msg : string) : string :=
  "Task: " +:+ name task +:+ pystr.nl +:+
  "Error: " +:+ error_msg +:+ pystr.nl.

Definition log_exception (task : CopilotTask) (error_msg : string) : string :=
  "Task: " +:+ name task +:+ pystr.nl +:+
  "Exception: " +:+ error_msg +:+ pystr.nl.



(** [TaskRunner.run_task]: the returned triple and the files written. *)
Definition run_task (r : TaskRunner) (task : CopilotTask) (w : Env)
    : (bool * string * string) * list FileWrite :=
  match subprocess.run (run_task_call task) (proc w) with
  | subprocess.CompletedProcess rc out err =>
      let success := rc =? 0 in
      ((success, out, err),
       [(task_log r task, log_completed task (t_end w) rc out err)])
  | subprocess.TimeoutExpired =>
      let error_msg :=
        "Task timed out after " +:+ pretty (timeout task) +:+ " seconds" in
      ((false, EmptyString, error_msg),
       [(task_log r task, log_timeout task error_msg)])
  | subprocess.OtherException e =>
      let error_msg := e in
      ((false, EmptyString, error_msg),
       [(task_log r task, log_exception task error_msg)])
  end.

(** A dispatched task together with what the environment does to it. *)
Definition Job : Type := CopilotTask * Env.

(** [executor.submit(self.run_task, task)], observed when it completes. *)
Definition submit (r : TaskRunner) (j : Job)
    : Future (bool * string * string) * list FileWrite :=
  let '(res, files) := run_task r j.1 j.2 in (Returned res, files).

(** One iteration of the [as_completed] loop of [run_parallel]. *)
Definition collect_one (task : CopilotTask) (f : Future (bool * string * string))
    (results : gmap string bool) : gmap string bool :=
  match f with
  | Returned (success, _, _) => <[name task := success]> results
  | Raised _ => <[name task := false]> results
  end.

(** The loop [for future in as_completed(future_to_task)], over the jobs
    in the order in which they complete. *)
Definition collect (r : TaskRunner) (completion : list Job)
    : gmap string bool * list FileWrite :=
  foldl (λ st j,
           let '(f, files) := submit r j in
           (collect_one j.1 f st.1, st.2 ++ files))
        (∅, []) completion.

(** [TaskRunner.run_parallel]. The executor decides in which order the
    futures complete: [as_completed tasks] lists the submitted jobs in
    that order (a permutation of [tasks]). *)
Definition run_parallel (r : TaskRunner) (tasks : list Job) (max_workers : Z)
    (as_completed : list Job → list Job)
    : Exc (gmap string bool * list FileWrite) :=
  match ThreadPoolExecutor max_workers with
  | Raise e => Raise e
  | Ok _ => Ok (collect r (as_completed tasks))
  end.

(** [TaskRunner.run_sequential]: the [for] loop, with [break]. *)
Fixpoint sequential_loop (r : TaskRunner) (stop_on_failure : bool)
    (jobs : list Job) (st : gmap string bool * list FileWrite)
    : gmap string bool * list FileWrite :=
  match jobs with
  | [] => st
  | j :: rest =>
      let '((success, _, _), files) := run_task r j.1 j.2 in
      let st' := (<[name j.1 := success]> st.1, st.2 ++ files) in
      if negb success && stop_on_failure then st'
      else sequential_loop r stop_on_failure rest st'
  end.

Definition run_sequential (r : TaskRunner) (jobs : list Job)
    (stop_on_failure : bool) : gmap string bool * list FileWrite :=
  sequential_loop r stop_on_failure jobs (∅, []).

(** *** The command line *)

Inductive Command :=
| Single (name prompt approval : string) (timeout : Z)
| FromFile (data : Document) (workflow : option string)
    (tasks : list string) (sequential stop_on_failure : bool)
    (max_workers : Z)
| NoCommand.

Inductive Outcome :=
| SysExit (code : Z)
| Uncaught (e : exn).

(** The [i]-th dispatched task meets the environment [world i]. *)
Definition jobs_of (world : nat → Env) (task_list : list CopilotTask)
    : list Job :=
  imap (λ i task, (task, world i)) task_list.

Definition mode_of (sequential : bool) : string :=
  if sequential then "sequential"%string else "parallel"%string.

(** "Determine which tasks to run": the task list and the mode, or the
    exit taken instead. *)
Definition select (tasks : list (string * CopilotTask))
    (workflows : list (string * WorkflowData)) (workflow : option string)
    (ids : list string) (sequential : bool)
    : Outcome + (list CopilotTask * string) :=
  if pystr.truthy (default EmptyString workflow) then
    match assoc (default EmptyString workflow) workflows with
    | None => inl (SysExit 1)
    | Some wf =>
        match wf_tasks wf with
        | None => inl (Uncaught (KeyError "tasks"))
        | Some ids' =>
            inr (resolve tasks ids',
                 default "sequential"%string (wf_mode wf))
        end
    end
  else
    match ids with
    | _ :: _ => inr (resolve tasks ids, mode_of sequential)
    | [] => inr (tasks.*2, mode_of sequential)
    end.

(** [main], after argument parsing. [copilot_installed] is the answer
    of [which copilot]; [as_completed] is the order in which the executor
    completes the submitted jobs. *)
Definition main (copilot_installed : bool) (r : TaskRunner)
    (cmd : Command) (world : nat → Env) (as_completed : list Job → list Job)
    : Outcome * list FileWrite :=
  if negb copilot_installed then (SysExit 1, [])
  else
    match cmd with
    | Single n p a t =>
        let task := CopilotTask_init n p (Some a) (Some t) None in
        let '((success, _, _), files) := run_task r task (world 0%nat) in
        (SysExit (if success then 0 else 1), files)
    | FromFile data workflow ids sequential stop_on_failure max_workers =>
        match load_tasks_from_file data with
        | Raise e => (Uncaught e, [])
        | Ok (tasks, workflows) =>
            match select tasks workflows workflow ids sequential with
            | inl out => (out, [])
            | inr (task_list, mode) =>
                let jobs := jobs_of world task_list in
                let run :=
                  if decide (mode = "sequential"%string)
                  then Ok (run_sequential r jobs stop_on_failure)
                  else run_parallel r jobs max_workers as_completed in
                match run with
                | Ok (results, files) => (SysExit (exit_code results), files)
                | Raise e => (Uncaught e, [])
                end
            end
        end
    | NoCommand => (SysExit 1, [])
    end.

End WithClock.

End Runner.

(** ** parallel-agents.py *)

Module Swarm.

Inductive Status :=
| S_pending | S_running | S_completed | S_failed | S_timeout | S_error.

(** The string the script stores in [agent.status]. *)
Definition status_str (s : Status) : string :=
  match s with
  | S_pending => "pending"
  | S_running => "running"
  | S_completed => "completed"
  | S_failed => "failed"
  | S_timeout => "timeout"
  | S_error => "error"
  end.

Record Agent := {
  agent_id : nat;
  name : string;
  task : string;
  approval : string;
  workspace : string;
  log_file : string;
  status : Status;
  start_time : option Z;
  end_time : option Z;
  output : string
}.

(** [Agent.__init__] *)
Definition Agent_init (agent_id : nat) (name task approval workspace : string)
    : Agent :=
  {| agent_id := agent_id;
     name := name;
     task := task;
     approval := approval;
     workspace := workspace;
     log_file :=
       workspace +:+ "/agent_" +:+ pretty agent_id +:+ "_" +:+ name +:+ ".log";
     status := S_pending;
     start_time := None;
     end_time := None;
     output := EmptyString |}.

(** The assignments [run] makes to the agent's mutable attributes. *)
Definition set_run (a : Agent) (st : Status) (t0 t1 : Z) (out : string)
    : Agent :=
  {| agent_id := agent_id a;
     name := name a;
     task := task a;
     approval := approval a;
     workspace := workspace a;
     log_file := log_file a;
     status := st;
     start_time := Some t0;
     end_time := Some t1;
     output := out |}.

(** [Agent.duration]; a clock reading of zero is falsy. *)
Definition duration (a : Agent) : Z :=
  match start_time a, end_time a with
  | Some t0, Some t1 => if (t0 =? 0) || (t1 =? 0) then 0 else t1 - t0
  | _, _ => 0
  end.

(** "Build command" and "Parse approval flags". *)
Definition build_cmd (a : Agent) : list string :=
  let cmd := ["copilot"; "-p"; task a; "--allow-all-paths"]%string in
  if pystr.truthy (approval a) then
    if pystr.startswith (approval a) "--" then cmd ++ [approval a]
    else cmd ++ pystr.split (approval a)
  else cmd.

(** The [subprocess.run] call of [Agent.run]. *)
Definition run_call (a : Agent) : subprocess.RunArgs :=
  {| subprocess.args := build_cmd a;
     subprocess.capture_output := true;
     subprocess.text := true;
     subprocess.stdin := subprocess.DEVNULL;
     subprocess.timeout := 900;
     subprocess.cwd := Some (workspace a) |}.

Section WithClock.

(** [datetime.fromtimestamp(t).isoformat()] and the [:.2f] rendering
    of a duration. *)
Variable isoformat : Z → string.
Variable format_2f : Z → string.

Definition log_header (a : Agent) : string :=
  "Agent: " +:+ name a +:+ " (ID: " +:+ pretty (agent_id a) +:+ ")" +:+ pystr.nl.

Definition log_completed (a : Agent) (t0 t1 rc : Z) (out err : string)
    : string :=
  log_header a +:+
  "Task: " +:+ task a +:+ pystr.nl +:+
  "Start: " +:+ isoformat t0 +:+ pystr.nl +:+
  "End: " +:+ isoformat t1 +:+ pystr.nl +:+
  "Duration: " +:+ format_2f (t1 - t0) +:+ "s" +:+ pystr.nl +:+
  "Exit Code: " +:+ pretty rc +:+ pystr.nl +:+
  pystr.nl +:+ "=== OUTPUT ===" +:+ pystr.nl +:+
  out +:+
  (if pystr.truthy err
   then pystr.nl +:+ "=== ERRORS ===" +:+ pystr.nl +:+ err
   else EmptyString).

Definition log_timeout (a : Agent) : string :=
  log_header a +:+ "Status: TIMEOUT" +:+ pystr.nl.

Definition log_error (a : Agent) (error_msg : string) : string :=
  log_header a +:+ "Error: " +:+ error_msg +:+ pystr.nl.

(** [Agent.run]: the agent after the call, the returned pair and the
    files written. *)
Definition run (a : Agent) (w : Env)
    : Agent * (bool * string) * list FileWrite :=
  match subprocess.run (run_call a) (proc w) with
  | subprocess.CompletedProcess rc out err =>
      let success := rc =? 0 in
      (set_run a (if success then S_completed else S_failed)
         (t_start w) (t_end w) out,
       (success, out),
       [(log_file a, log_completed a (t_start w) (t_end w) rc out err)])
  | subprocess.TimeoutExpired =>
      (set_run a S_timeout (t_start w) (t_end w) (output a),
       (false, "Task timed out"%string),
       [(log_file a, log_timeout a)])
  | subprocess.OtherException e =>
      (set_run a S_error (t_start w) (t_end w) (output a),
       (false, e),
       [(log_file a, log_error a e)])
  end.

Record AgentSwarm := {
  sw_workspace : string;
  max_agents : Z;
  agents : list Agent;
  timestamp : string;
  results_dir : string
}.

(** [AgentSwarm.__init__] *)
Definition AgentSwarm_init (workspace : string) (max_agents : Z)
    (timestamp : string) : AgentSwarm :=
  {| sw_workspace := workspace;
     max_agents := max_agents;
     agents := [];
     timestamp := timestamp;
     results_dir := workspace +:+ "/parallel-agents-results/" +:+ timestamp |}.

Definition with_agents (sw : AgentSwarm) (l : list Agent) : AgentSwarm :=
  {| sw_workspace := sw_workspace sw;
     max_agents := max_agents sw;
     agents := l;
     timestamp := timestamp sw;
     results_dir := results_dir sw |}.

(** [AgentSwarm.spawn_agent]; [approval = None] takes the default. *)
Definition spawn_agent (sw : AgentSwarm) (name task : string)
    (approval : option string) : AgentSwarm :=
  let agent :=
    Agent_init (length (agents sw)) name task
      (default "--allow-all-tools"%string approval) (sw_workspace sw) in
  with_agents sw (agents sw ++ [agent]).

(** One entry of the ["agents"] list of the summary. *)
Record AgentRecord := {
  r_id : nat;
  r_name : string;
  r_task : string;
  r_status : string;
  r_duration : Z;
  r_log_file : string
}.

(** The document written to [summary.json]. *)
Record Summary := {
  s_timestamp : string;
  total_agents : Z;
  successful : Z;
  failed : Z;
  s_agents : list AgentRecord
}.

Definition agent_record (a : Agent) : AgentRecord :=
  {| r_id := agent_id a;
     r_name := name a;
     r_task := task a;
     r_status := status_str (status a);
     r_duration := duration a;
     r_log_file := log_file a |}.

(** [AgentSwarm._generate_summary]: the path and the document dumped. *)
Definition _generate_summary (sw : AgentSwarm) (results : gmap string bool)
    : string * Summary :=
  let successes := Z.of_nat (count_true results) in
  let failures := Z.of_nat (size results) - successes in
  (results_dir sw +:+ "/summary.json",
   {| s_timestamp := timestamp sw;
      total_agents := Z.of_nat (length (agents sw));
      successful := successes;
      failed := failures;
      s_agents := agent_record <$> agents sw |}).

(** The world met by an agent is indexed by its [agent_id]. *)
Definition run_in (world : nat → Env) (a : Agent)
    : Agent * (bool * string) * list FileWrite :=
  run a (world (agent_id a)).

(** [executor.submit(agent.run)], observed when it completes. *)
Definition submit (world : nat → Env) (a : Agent) : Future (bool * string) :=
  Returned (run_in world a).1.2.

(** One iteration of the [as_completed] loop of [execute]. *)
Definition collect_one (a : Agent) (f : Future (bool * string))
    (results : gmap string bool) : gmap string bool :=
  match f with
  | Returned (success, _) => <[name a := success]> results
  | Raised _ => <[name a := false]> results
  end.

Definition collect (world : nat → Env) (completion : list Agent)
    : gmap string bool :=
  foldl (λ results a, collect_one a (submit world a) results) ∅ completion.

(** What a call of [execute] leaves behind. *)
Record Execution := {
  results : gmap string bool;
  swarm : AgentSwarm;                      (* agents after their runs *)
  summary : option (string * Summary);      (* summary.json, if written *)
  logs : list FileWrite                     (* agent logs, as completed *)
}.

(** [AgentSwarm.execute]. [as_completed (agents sw)] lists the agents in
    the order in which their futures complete (a permutation of
    [agents sw]). *)
Definition execute (sw : AgentSwarm) (world : nat → Env)
    (as_completed : list Agent → list Agent) : Exc Execution :=
  match agents sw with
  | [] =>
      Ok {| results := ∅; swarm := sw; summary := None; logs := [] |}
  | _ :: _ =>
      match ThreadPoolExecutor (max_agents sw) with
      | Raise e => Raise e
      | Ok _ =>
          let completion := as_completed (agents sw) in
          let res := collect world completion in
          let sw' :=
            with_agents sw ((λ a, (run_in world a).1.1) <$> agents sw) in
          Ok {| results := res;
                swarm := sw';
                summary := Some (_generate_summary sw' res);
                logs := completion ≫= (λ a, (run_in world a).2) |}
      end
  end.

(** *** The command line *)

(** One entry of the ["agents"] list of the configuration file. *)
Record AgentConfig := {
  ac_name : option string;
  ac_task : option string;
  ac_approval : option string
}.

Inductive Command :=
| Quick (tasks : list string) (approval : string)
| FromConfig (agent_configs : list AgentConfig)
| NoCommand.

(** The [for] loop of the [quick] command. *)
Definition spawn_quick (sw : AgentSwarm) (tasks : list string)
    (approval : string) : AgentSwarm :=
  foldl (λ sw it, spawn_agent sw ("agent-" +:+ pretty it.1) it.2 (Some approval))
        sw (imap (λ (i : nat) task, (i, task)) tasks).

(** The [for] loop of the [from-config] command; [config['name']] and
    [config['task']] raise [KeyError] on an absent key. *)
Fixpoint spawn_configs (sw : AgentSwarm) (configs : list AgentConfig)
    : Exc AgentSwarm :=
  match configs with
  | [] => Ok sw
  | config :: rest =>
      match ac_name config with
      | None => Raise (KeyError "name")
      | Some n =>
          match ac_task config with
          | None => Raise (KeyError "task")
          | Some t =>
              spawn_configs (spawn_agent sw n t (ac_approval config)) rest
          end
      end
  end.

(** [results = swarm.execute()] followed by
    [sys.exit(0 if all(results.values()) else 1)], inside
    [try: ... except Exception: sys.exit(1)]. *)
Definition execute_and_exit (sw : AgentSwarm) (world : nat → Env)
    (as_completed : list Agent → list Agent) : Z * option Execution :=
  match execute sw world as_completed with
  | Ok e => (exit_code (results e), Some e)
  | Raise _ => (1, None)
  end.

(** [main], after argument parsing: the process exit code and the
    execution, if one took place. The [interactive] command reads the
    terminal and is not modelled. *)
Definition main (copilot_installed : bool) (workspace : string)
    (max_agents : Z) (timestamp : string) (cmd : Command)
    (world : nat → Env) (as_completed : list Agent → list Agent)
    : Z * option Execution :=
  if negb copilot_installed then (1, None)
  else
    let sw := AgentSwarm_init workspace max_agents timestamp in
    match cmd with
    | Quick tasks approval =>
        execute_and_exit (spawn_quick sw tasks approval) world as_completed
    | FromConfig configs =>
        match spawn_configs sw configs with
        | Ok sw => execute_and_exit sw world as_completed
        | Raise _ => (1, None)
        end
    | NoCommand => (1, None)
    end.

End WithClock.

End Swarm.

(** ** Vocabulary of the statements *)

(** Writing the pairs of [kvs] into a dict, first to last:
    [for k, v in kvs: m[k] = v]. *)
Definition insert_all (kvs : list (string * bool)) (m : gmap string bool)
    : gmap string bool :=
  foldl (λ m kv, <[kv.1 := kv.2]> m) m kvs.

Module RunnerSpec.
Import Runner.

(** The task built from one entry of the document, when the entry has a
    [prompt] key. *)
Definition parse_entry (e : string * TaskData) : option (string * CopilotTask) :=
  p ← td_prompt e.2;
  Some (e.1,
        {| name := default e.1 (td_name e.2);
           prompt := p;
           approval := default "--allow-all-tools"%string (td_approval e.2);
           timeout := default 120 (td_timeout e.2);
           description :=
             match td_description e.2 with
             | Some (String c d) => String c d
             | _ => p
             end |}).

Section WithClock.
Variable isoformat : Z → string.
Variable r : TaskRunner.

(** The [success] component of what [run_task] returns for a job. *)
Definition succeeded (j : Job) : bool :=
  (run_task isoformat r j.1 j.2).1.1.1.

(** The files [run_task] writes for a job. *)
Definition written (j : Job) : list FileWrite :=
  (run_task isoformat r j.1 j.2).2.

Definition names (jobs : list Job) : list string :=
  (λ j : Job, name j.1) <$> jobs.

(** The assignments [results[task.name] = success] of a list of jobs. *)
Definition outcomes (jobs : list Job) : list (string * bool) :=
  (λ j : Job, (name j.1, succeeded j)) <$> jobs.
End WithClock.
End RunnerSpec.

Module SwarmSpec.
Import Swarm.

Section WithClock.
Variable isoformat : Z → string.
Variable format_2f : Z → string.
Variable world : nat → Env.

Definition succeeded (a : Agent) : bool :=
  (run_in isoformat format_2f world a).1.2.1.

(** The agent as its [run] leaves it. *)
Definition after (a : Agent) : Agent :=
  (run_in isoformat format_2f world a).1.1.

Definition names (l : list Agent) : list string := name <$> l.

Definition outcomes (l : list Agent) : list (string * bool) :=
  (λ a, (name a, succeeded a)) <$> l.
End WithClock.
End SwarmSpec.

(** ** Concrete runs *)

Module Scenario.

Definition runner : Runner.TaskRunner :=
  {| Runner.results_dir := "copilot-results";
     Runner.verbose := false;
     Runner.timestamp := "20250101_120000" |}.

(** A process that exits with code [rc] after one second. *)
Definition exits (rc : Z) : Env :=
  {| proc := subprocess.Exits 1000 rc "out" "err"; t_start := 1; t_end := 1001 |}.

Definition hangs : Env :=
  {| proc := subprocess.Hangs; t_start := 1; t_end := 900001 |}.

Definition mk_task (name prompt : string) : Runner.CopilotTask :=
  Runner.CopilotTask_init name prompt None None None.

(** Three tasks with distinct names; the second one exits with code 1. *)
Definition T1 : Runner.Job := (mk_task "T1" "build the app", exits 0).
Definition T2 : Runner.Job := (mk_task "T2" "run the tests", exits 1).
Definition T3 : Runner.Job := (mk_task "T3" "update the docs", exits 0).
Definition jobs : list Runner.Job := [T1; T2; T3].

Definition entry (name : option string) (prompt : option string)
    (timeout : option Z) : Runner.TaskData :=
  {| Runner.td_name := name;
     Runner.td_prompt := prompt;
     Runner.td_approval := None;
     Runner.td_timeout := timeout;
     Runner.td_description := None |}.

(** A task document whose two task ids carry the same display name. *)
Definition same_name_doc : Runner.Document :=
  {| Runner.doc_tasks :=
       [("lint", entry (Some "check") (Some "run the linter") None);
        ("test", entry (Some "check") (Some "run the tests") None)]%string;
     Runner.doc_workflows := [] |}.

(** The second spawned process exits with code 1, every other with 0. *)
Definition world (i : nat) : Env :=
  match i with 1%nat => exits 1 | _ => exits 0 end.

Definition fresh_swarm : Swarm.AgentSwarm :=
  Swarm.AgentSwarm_init "/ws" 4 "20250101_120000".

(** The swarm of [quick "check syntax" "run tests" "update docs"]. *)
Definition quick_swarm : Swarm.AgentSwarm :=
  Swarm.spawn_quick fresh_swarm
    ["check syntax"; "run tests"; "update docs"]%string "--allow-all-tools".

Definition rotate {A : Type} (l : list A) : list A :=
  match l with [] => [] | x :: l' => l' ++ [x] end.

Definition config (name task : string) : Swarm.AgentConfig :=
  {| Swarm.ac_name := Some name;
     Swarm.ac_task := Some task;
     Swarm.ac_approval := None |}.

(** An agent configuration file with two agents of the same name. *)
Definition same_name_configs : list Swarm.AgentConfig :=
  [config "fix" "fix the parser"; config "fix" "fix the lexer"].

(** The first spawned process exits with code 1, every other with 0. *)
Definition world_first_fails (i : nat) : Env :=
  match i with 0%nat => exits 1 | _ => exits 0 end.

(** A task document with an empty prompt and with non-positive timeouts. *)
Definition invalid_doc : Runner.Document :=
  {| Runner.doc_tasks :=
       [("empty", entry None (Some "") None);
        ("zero", entry None (Some "build the app") (Some 0));
        ("negative", entry None (Some "run the tests") (Some (-5)))]%string;
     Runner.doc_workflows := [] |}.

(** A task document whose second entry has no [prompt] key. *)
Definition promptless_doc : Runner.Document :=
  {| Runner.doc_tasks :=
       [("build", entry None (Some "build the app") None);
        ("broken", entry (Some "broken") None (Some 60))]%string;
     Runner.doc_workflows := [] |}.

(** A document whose workflow refers to a task id that is not defined. *)
Definition ghost_doc : Runner.Document :=
  {| Runner.doc_tasks :=
       [("build", entry None (Some "build the app") None)]%string;
     Runner.doc_workflows :=
       [("ci"%string,
         {| Runner.wf_tasks := Some ["build"; "ghost"]%string;
            Runner.wf_mode := None;
            Runner.wf_description := None |})] |}.

(** [from-file <doc> --sequential], every task of the document. *)
Definition run_all (data : Runner.Document) : Runner.Command :=
  Runner.FromFile data None [] true false 4.

Definition agent0 : Swarm.Agent :=
  Swarm.Agent_init 0 "agent-0" "generate the module" "--allow-all-tools" "/ws".

(** A process that exits with code 0 after 200 seconds. *)
Definition slow_success : Env :=
  {| proc := subprocess.Exits 200000 0 "done" ""; t_start := 1; t_end := 200001 |}.


End Scenario.

(** ** Further parts of the two scripts *)

(** More string primitives. *)
Module pytext.

(** [s.lower()] on ASCII letters. *)
Definition lower_char (c : ascii) : ascii :=
  let n := nat_of_ascii c in
  if (65 <=? n)%nat && (n <=? 90)%nat then ascii_of_nat (n + 32) else c.

Fixpoint lower (s : string) : string :=
  match s with
  | EmptyString => EmptyString
  | String c s' => String (lower_char c) (lower s')
  end.

Fixpoint lstrip (s : string) : string :=
  match s with
  | EmptyString => EmptyString
  | String c s' => if pystr.isspace c then lstrip s' else s
  end.

(** [s.rstrip()]: a character stays when it is not blank or when something
    that stays follows it. *)
Fixpoint rstrip (s : string) : string :=
  match s with
  | EmptyString => EmptyString
  | String c s' =>
      match rstrip s' with
      | EmptyString => if pystr.isspace c then EmptyString else String c EmptyString
      | t => String c t
      end
  end.

(** [s.strip()] *)
Definition strip (s : string) : string := rstrip (lstrip s).

Definition isdigit (c : ascii) : bool :=
  let n := nat_of_ascii c in (48 <=? n)%nat && (n <=? 57)%nat.

(** Every character of [s] satisfies [p]. *)
Fixpoint all_chars (p : ascii → bool) (s : string) : bool :=
  match s with
  | EmptyString => true
  | String c s' => p c && all_chars p s'
  end.


End pytext.

Module RunnerMore.
Import Runner.

(** [CopilotTask.to_dict]: the dict with the keys [name], [prompt],
    [approval], [timeout] and [description]. *)
Definition to_dict (task : CopilotTask) : TaskData :=
  {| td_name := Some (name task);
     td_prompt := Some (prompt task);
     td_approval := Some (approval task);
     td_timeout := Some (timeout task);
     td_description := Some (description task) |}.

(** The tasks of a list up to and including the first one that does not
    succeed; the whole list when every task succeeds. *)
Fixpoint until_first_failure (succeeded : Job → bool) (jobs : list Job)
    : list Job :=
  match jobs with
  | [] => []
  | j :: rest =>
      if succeeded j then j :: until_first_failure succeeded rest else [j]
  end.

End RunnerMore.

Module SwarmMore.
Import Swarm.

(** What is typed for one agent: name, task and approval flags. *)
Definition Entry : Type := string * string * option string.

(** Calling [spawn_agent] for each entry in turn. *)
Definition spawn_all (sw : AgentSwarm) (entries : list Entry) : AgentSwarm :=
  foldl (λ sw (e : Entry), spawn_agent sw e.1.1 e.1.2 e.2) sw entries.

(** The entry a configuration holds, when it has both a [name] and a
    [task] key. *)
Definition config_entry (config : AgentConfig) : option Entry :=
  n ← ac_name config; t ← ac_task config; Some (n, t, ac_approval config).

(** The agent [spawn_agent] creates for an entry as the [i]-th agent of a
    swarm with workspace [ws]. *)
Definition spawned (ws : string) (i : nat) (e : Entry) : Agent :=
  Agent_init i e.1.1 e.1.2 (default "--allow-all-tools"%string e.2) ws.

(** The statuses [run] can leave. *)
Definition terminal (st : Status) : bool :=
  match st with
  | S_completed | S_failed | S_timeout | S_error => true
  | S_pending | S_running => false
  end.

(** How the [while True] loop of the [interactive] command ends. *)
Inductive LoopEnd :=
| Done (sw : AgentSwarm) (agent_count : nat)
| Cancelled
| EndOfInput.

(** The loop of the [interactive] command over the lines [input()] returns
    one after the other; [input()] raises [EOFError] when there is none
    left. *)
Fixpoint interactive_loop (inputs : list string) (sw : AgentSwarm)
    (agent_count : nat) : LoopEnd :=
  match inputs with
  | [] => EndOfInput
  | line :: rest =>
      let name := pytext.strip line in
      if decide (pytext.lower name = "done"%string) then Done sw agent_count
      else if decide (pytext.lower name = "cancel"%string) then Cancelled
      else
        match rest with
        | [] => EndOfInput
        | line' :: rest' =>
            let task := pytext.strip line' in
            if pystr.truthy task then
              match rest' with
              | [] => EndOfInput
              | line'' :: rest'' =>
                  let approval := pytext.strip line'' in
                  let approval :=
                    if pystr.truthy approval then approval
                    else "--allow-all-tools"%string in
                  interactive_loop rest''
                    (spawn_agent sw name task (Some approval))
                    (S agent_count)
              end
            else interactive_loop rest' sw agent_count
        end
  end.

(** What is typed at the three prompts for one agent. *)
Definition Typed : Type := string * string * string.

Definition lines (raw : Typed) : list string := [raw.1.1; raw.1.2; raw.2].

(** The loop goes on to spawn an agent from what was typed: the name is
    neither [done] nor [cancel] and the task is not blank. *)
Definition accepted (raw : Typed) : Prop :=
  pytext.lower (pytext.strip raw.1.1) ≠ "done"%string
  ∧ pytext.lower (pytext.strip raw.1.1) ≠ "cancel"%string
  ∧ pytext.strip raw.1.2 ≠ EmptyString.

(** The entry typed: each line without the blanks around it, and no
    approval when that line is blank. *)
Definition entry_of (raw : Typed) : Entry :=
  (pytext.strip raw.1.1, pytext.strip raw.1.2,
   if pystr.truthy (pytext.strip raw.2) then Some (pytext.strip raw.2)
   else None).

(** The configuration entry that holds the same name, task and approval. *)
Definition config_of (e : Entry) : AgentConfig :=
  {| ac_name := Some e.1.1; ac_task := Some e.1.2; ac_approval := e.2 |}.

Section WithClock.
Variable isoformat : Z → string.
Variable format_2f : Z → string.

(** The [interactive] branch of [main]: the exit code and the execution,
    if one took place. *)
Definition main_interactive (copilot_installed : bool) (workspace : string)
    (max_agents : Z) (timestamp : string) (inputs : list string)
    (world : nat → Env) (as_completed : list Agent → list Agent)
    : Z * option Execution :=
  if negb copilot_installed then (1, None)
  else
    match interactive_loop inputs
            (AgentSwarm_init workspace max_agents timestamp) 0 with
    | Done sw agent_count =>
        if decide (agent_count = 0%nat) then (0, None)
        else execute_and_exit isoformat format_2f sw world as_completed
    | Cancelled => (1, None)
    | EndOfInput => (1, None)
    end.

End WithClock.

End SwarmMore.

(** ** Result maps *)

Section ResultMaps.
Implicit Types (kvs : list (string * bool)) (m : gmap string bool).

Lemma insert_all_foldr kvs m :
  insert_all kvs m = foldr (λ kv m', <[kv.1 := kv.2]> m') m (reverse kvs).
Proof.
  revert m. induction kvs as [|kv kvs IH]; intros m; [done|].
  rewrite reverse_cons, foldr_app. simpl. apply IH.
Qed.

(** Written into an empty dict, the last assignment to a key wins. *)
Lemma insert_all_list_to_map kvs :
  insert_all kvs ∅ = list_to_map (reverse kvs).
Proof. by rewrite insert_all_foldr. Qed.

Lemma insert_all_lookup_None kvs k :
  k ∉ kvs.*1 → insert_all kvs ∅ !! k = None.
Proof.
  intros Hk. rewrite insert_all_list_to_map.
  apply not_elem_of_list_to_map_1. by rewrite fmap_reverse, elem_of_reverse.
Qed.

Lemma insert_all_lookup_is_Some kvs k :
  k ∈ kvs.*1 → is_Some (insert_all kvs ∅ !! k).
Proof.
  intros Hk. rewrite insert_all_list_to_map.
  destruct (list_to_map (reverse kvs) !! k) eqn:E; [by eexists|].
  apply not_elem_of_list_to_map_2 in E.
  by rewrite fmap_reverse, elem_of_reverse in E.
Qed.

Section Distinct.
Variable kvs : list (string * bool).
Hypothesis distinct : NoDup kvs.*1.

Lemma NoDup_reverse_keys : NoDup (reverse kvs).*1.
Proof. by rewrite fmap_reverse, reverse_Permutation. Qed.

Lemma insert_all_distinct : insert_all kvs ∅ = list_to_map kvs.
Proof.
  rewrite insert_all_list_to_map.
  apply list_to_map_proper; [apply NoDup_reverse_keys|apply reverse_Permutation].
Qed.

Lemma insert_all_lookup k v :
  (k, v) ∈ kvs → insert_all kvs ∅ !! k = Some v.
Proof. rewrite insert_all_distinct. by apply elem_of_list_to_map_1. Qed.

Lemma insert_all_size : size (insert_all kvs ∅) = length kvs.
Proof. rewrite insert_all_distinct. by apply map_size_list_to_map. Qed.

Lemma insert_all_perm kvs' :
  kvs' ≡ₚ kvs → insert_all kvs' ∅ = insert_all kvs ∅.
Proof.
  intros Hp. rewrite insert_all_distinct.
  assert (NoDup kvs'.*1) as Hd by (by rewrite Hp).
  rewrite !insert_all_list_to_map.
  apply list_to_map_proper.
  - by rewrite fmap_reverse, reverse_Permutation.
  - by rewrite !reverse_Permutation.
Qed.

Lemma count_true_distinct :
  count_true (insert_all kvs ∅)
  = length (filter (λ kv, kv.2 = true) kvs).
Proof.
  unfold count_true. rewrite insert_all_distinct.
  by rewrite (map_to_list_to_map kvs distinct).
Qed.

Lemma all_values_distinct :
  all_values (insert_all kvs ∅) = true ↔ ∀ k v, (k, v) ∈ kvs → v = true.
Proof.
  unfold all_values. rewrite insert_all_distinct, forallb_forall.
  split.
  - intros H k v Hin. apply (H (k, v)). apply list_elem_of_In.
    by rewrite (map_to_list_to_map kvs distinct).
  - intros H [k v] Hin%list_elem_of_In.
    rewrite (map_to_list_to_map kvs distinct) in Hin. by apply (H k v).
Qed.
End Distinct.

Lemma count_true_le m : (count_true m ≤ size m)%nat.
Proof.
  unfold count_true. rewrite <-length_map_to_list. apply length_filter.
Qed.
End ResultMaps.

(** ** The task runner's schedulers *)

Section RunnerSchedulers.
Import Runner RunnerSpec.
Variable isoformat : Z → string.
Variable r : TaskRunner.

Local Abbreviation succeeded := (succeeded isoformat r).
Local Abbreviation written := (written isoformat r).
Local Abbreviation outcomes := (outcomes isoformat r).

Lemma outcomes_keys jobs : (outcomes jobs).*1 = names jobs.
Proof. unfold RunnerSpec.outcomes, names. rewrite <-list_fmap_compose. done. Qed.

Lemma parallel_fold completion st :
  foldl (λ st j,
           let '(f, files) := submit isoformat r j in
           (collect_one j.1 f st.1, st.2 ++ files)) st completion
  = (insert_all (outcomes completion) st.1, st.2 ++ completion ≫= written).
Proof.
  revert st. induction completion as [|j l IH]; intros [m fs]; simpl.
  - by rewrite app_nil_r.
  - rewrite IH. unfold submit, RunnerSpec.succeeded, RunnerSpec.written.
    destruct (run_task isoformat r j.1 j.2) as [[[s o] e] f]. simpl.
    by rewrite <-app_assoc.
Qed.

Lemma runner_collect completion :
  collect isoformat r completion
  = (insert_all (outcomes completion) ∅, completion ≫= written).
Proof. unfold collect. by rewrite parallel_fold. Qed.

(** With a positive worker limit a parallel run returns: the result map is
    the one written in completion order, and one log is written per job. *)
Lemma run_parallel_returns tasks max_workers as_completed :
  0 < max_workers →
  run_parallel isoformat r tasks max_workers as_completed
  = Ok (insert_all (outcomes (as_completed tasks)) ∅,
        as_completed tasks ≫= written).
Proof.
  intros H. unfold run_parallel, ThreadPoolExecutor.
  destruct (Z.leb_spec max_workers 0); [lia|]. by rewrite runner_collect.
Qed.

Lemma run_parallel_raises tasks max_workers as_completed :
  max_workers ≤ 0 →
  run_parallel isoformat r tasks max_workers as_completed
  = Raise (ValueError "max_workers must be greater than 0").
Proof.
  intros H. unfold run_parallel, ThreadPoolExecutor.
  by destruct (Z.leb_spec max_workers 0); [|lia].
Qed.

Lemma outcomes_perm (l l' : list Job) : l ≡ₚ l' → outcomes l ≡ₚ outcomes l'.
Proof. intros H. unfold RunnerSpec.outcomes. by rewrite H. Qed.

End RunnerSchedulers.

(** ** The agent swarm's collector *)

Section SwarmCollector.
Import Swarm SwarmSpec.
Variable isoformat : Z → string.
Variable format_2f : Z → string.
Variable world : nat → Env.

Local Abbreviation outcomes := (outcomes isoformat format_2f world).

Lemma swarm_outcomes_keys l : (outcomes l).*1 = names l.
Proof. unfold SwarmSpec.outcomes, names. rewrite <-list_fmap_compose. done. Qed.

Lemma collect_results completion :
  collect isoformat format_2f world completion
  = insert_all (outcomes completion) ∅.
Proof.
  unfold collect. generalize (∅ : gmap string bool).
  induction completion as [|a l IH]; intros m; [done|].
  simpl. rewrite IH. unfold submit, SwarmSpec.succeeded.
  by destruct (run_in isoformat format_2f world a) as [[a' [s o]] f].
Qed.

Lemma swarm_outcomes_perm (l l' : list Agent) :
  l ≡ₚ l' → outcomes l ≡ₚ outcomes l'.
Proof. intros H. unfold SwarmSpec.outcomes. by rewrite H. Qed.

End SwarmCollector.

(** ** Parallel mode *)

Lemma rotate_Permutation {A} (l : list A) : Scenario.rotate l ≡ₚ l.
Proof. destruct l as [|x l]; [done|]. simpl. symmetry. apply Permutation_cons_append. Qed.

(** What [execute] does when the pool can be created. *)
Lemma execute_returns isoformat format_2f sw world as_completed :
  0 < Swarm.max_agents sw ∨ Swarm.agents sw = [] →
  Swarm.execute isoformat format_2f sw world as_completed
  = Ok (match Swarm.agents sw with
        | [] =>
            {| Swarm.results := ∅; Swarm.swarm := sw;
               Swarm.summary := None; Swarm.logs := [] |}
        | _ :: _ =>
            let completion := as_completed (Swarm.agents sw) in
            let res := insert_all
                         (SwarmSpec.outcomes isoformat format_2f world completion) ∅ in
            let sw' :=
              Swarm.with_agents sw
                (SwarmSpec.after isoformat format_2f world <$> Swarm.agents sw) in
            {| Swarm.results := res;
               Swarm.swarm := sw';
               Swarm.summary := Some (Swarm._generate_summary sw' res);
               Swarm.logs :=
                 completion ≫= (λ a, (Swarm.run_in isoformat format_2f world a).2) |}
        end).
Proof.
  intros H. unfold Swarm.execute, ThreadPoolExecutor.
  destruct (Swarm.agents sw) as [|a l]; [done|].
  destruct H as [H|H]; [|done].
  destruct (Z.leb_spec (Swarm.max_agents sw) 0); [lia|].
  cbv zeta. by rewrite collect_results.
Qed.

(** C2, as the code has it. The result map of a parallel run is keyed by
    the task's (agent's) [name]. When the names of the N dispatched tasks
    are pairwise distinct (and the worker limit is positive, so that the
    pool exists), the run returns a map with exactly N entries, one per
    task, holding that task's own outcome, whatever the order in which the
    tasks complete; two runs over the same tasks that differ only in
    completion order return the same map, hence the same counts of
    successes and failures, and the swarm persists the same summary. First
    conjunct: [TaskRunner.run_parallel]; second: [AgentSwarm.execute]. *)
Theorem C2_parallel_results_keyed_by_name :
  (∀ isoformat r (jobs : list Runner.Job) max_workers
     (order1 order2 : list Runner.Job → list Runner.Job),
     0 < max_workers →
     NoDup (RunnerSpec.names jobs) →
     order1 jobs ≡ₚ jobs → order2 jobs ≡ₚ jobs →
     ∃ res files1 files2,
       Runner.run_parallel isoformat r jobs max_workers order1
       = Ok (res, files1)
       ∧ Runner.run_parallel isoformat r jobs max_workers order2
         = Ok (res, files2)
       ∧ size res = length jobs
       ∧ (∀ j, j ∈ jobs →
            res !! Runner.name j.1 = Some (RunnerSpec.succeeded isoformat r j))
       ∧ (∀ k, k ∉ RunnerSpec.names jobs → res !! k = None)
       ∧ files1 ≡ₚ files2)
  ∧
  (∀ isoformat format_2f world sw
     (order1 order2 : list Swarm.Agent → list Swarm.Agent),
     0 < Swarm.max_agents sw →
     NoDup (SwarmSpec.names (Swarm.agents sw)) →
     order1 (Swarm.agents sw) ≡ₚ Swarm.agents sw →
     order2 (Swarm.agents sw) ≡ₚ Swarm.agents sw →
     ∃ e1 e2,
       Swarm.execute isoformat format_2f sw world order1 = Ok e1
       ∧ Swarm.execute isoformat format_2f sw world order2 = Ok e2
       ∧ Swarm.results e1 = Swarm.results e2
       ∧ Swarm.summary e1 = Swarm.summary e2
       ∧ size (Swarm.results e1) = length (Swarm.agents sw)
       ∧ (∀ a, a ∈ Swarm.agents sw →
            Swarm.results e1 !! Swarm.name a
            = Some (SwarmSpec.succeeded isoformat format_2f world a))
       ∧ (∀ k, k ∉ SwarmSpec.names (Swarm.agents sw) →
            Swarm.results e1 !! k = None)).
Proof.
  split.
  - intros iso r jobs mw o1 o2 Hmw Hnd H1 H2.
    assert (NoDup (RunnerSpec.outcomes iso r jobs).*1) as Hk
      by (by rewrite outcomes_keys).
    eexists _, _, _.
    split; [by apply run_parallel_returns|].
    split.
    { rewrite run_parallel_returns by done. do 2 f_equal.
      rewrite (insert_all_perm _ Hk _ (outcomes_perm _ _ _ _ H2)).
      by rewrite (insert_all_perm _ Hk _ (outcomes_perm _ _ _ _ H1)). }
    rewrite (insert_all_perm _ Hk _ (outcomes_perm _ _ _ _ H1)).
    split; [rewrite insert_all_size by done; apply length_fmap|].
    split.
    { intros j Hj. apply insert_all_lookup; [done|].
      unfold RunnerSpec.outcomes. apply list_elem_of_fmap. by exists j. }
    split.
    { intros k Hk'. apply insert_all_lookup_None. by rewrite outcomes_keys. }
    by rewrite H1, H2.
  - intros iso f2 world sw o1 o2 Hmw Hnd H1 H2.
    eexists _, _.
    split; [apply execute_returns; by left|].
    split; [apply execute_returns; by left|].
    destruct (Swarm.agents sw) as [|a0 l] eqn:Hag.
    { cbn [Swarm.results Swarm.summary]. split; [done|]. split; [done|].
      split; [apply map_size_empty|]. split; [by intros a Ha%elem_of_nil|].
      intros k _. apply lookup_empty. }
    set (ags := a0 :: l) in *.
    assert (NoDup (SwarmSpec.outcomes iso f2 world ags).*1) as Hk
      by (by rewrite swarm_outcomes_keys).
    cbn [Swarm.results Swarm.summary].
    rewrite (insert_all_perm _ Hk _ (swarm_outcomes_perm _ _ _ _ _ H1)).
    rewrite (insert_all_perm _ Hk _ (swarm_outcomes_perm _ _ _ _ _ H2)).
    split; [done|]. split; [done|].
    split; [rewrite insert_all_size by done; apply length_fmap|].
    split.
    + intros a Ha. apply insert_all_lookup; [done|].
      unfold SwarmSpec.outcomes. apply list_elem_of_fmap. by exists a.
    + intros k Hk'. apply insert_all_lookup_None.
      by rewrite swarm_outcomes_keys.
Qed.

Lemma C2_parallel_results_keyed_by_name_witness :
  (∃ res files1 files2,
     Runner.run_parallel pretty Scenario.runner Scenario.jobs 4 Scenario.rotate
     = Ok (res, files1)
     ∧ Runner.run_parallel pretty Scenario.runner Scenario.jobs 4 reverse
       = Ok (res, files2)
     ∧ size res = 3%nat)
  ∧ (∃ e1 e2,
       Swarm.execute pretty pretty Scenario.quick_swarm Scenario.world
         Scenario.rotate = Ok e1
       ∧ Swarm.execute pretty pretty Scenario.quick_swarm Scenario.world
           reverse = Ok e2
       ∧ Swarm.summary e1 = Swarm.summary e2
       ∧ size (Swarm.results e1) = 3%nat).
Proof.
  split.
  - assert (NoDup (RunnerSpec.names Scenario.jobs)) as Hnd by compute_done.
    destruct (proj1 C2_parallel_results_keyed_by_name
                pretty Scenario.runner Scenario.jobs 4 Scenario.rotate reverse
                ltac:(done) Hnd (rotate_Permutation _) (reverse_Permutation _))
      as (res & f1 & f2 & E1 & E2 & Hsize & _).
    exists res, f1, f2. by repeat split.
  - assert (NoDup (SwarmSpec.names (Swarm.agents Scenario.quick_swarm)))
      as Hnd by compute_done.
    destruct (proj2 C2_parallel_results_keyed_by_name
                pretty pretty Scenario.world Scenario.quick_swarm
                Scenario.rotate reverse
                ltac:(done) Hnd (rotate_Permutation _) (reverse_Permutation _))
      as (e1 & e2 & E1 & E2 & _ & Hsum & Hsize & _).
    exists e1, e2. by repeat split.
Defined.

(** The claim of C2 as the specification words it fails on a task document
    whose two task ids ["lint"] and ["test"] carry the same display name:
    two tasks are dispatched, the result map has one entry, and neither
    task id is a key of it. *)
Lemma C2_two_tasks_one_entry :
  ∃ tasks res files,
    Runner.load_tasks_from_file Scenario.same_name_doc = Ok (tasks, [])
    ∧ tasks.*1 = ["lint"; "test"]%string
    ∧ Runner.run_parallel pretty Scenario.runner
        (Runner.jobs_of Scenario.world tasks.*2) 4 id
      = Ok (res, files)
    ∧ length files = 2%nat
    ∧ size res = 1%nat
    ∧ res !! "lint"%string = None
    ∧ res !! "test"%string = None
    ∧ res !! "check"%string = Some false.
Proof.
  eexists _, _, _. split; [vm_compute; reflexivity|].
  split; [reflexivity|]. split; [vm_compute; reflexivity|]. by vm_compute.
Qed.

(** ** The summary of a swarm *)

Section SwarmSummary.
Import Swarm SwarmSpec.
Variable isoformat : Z → string.
Variable format_2f : Z → string.
Variable world : nat → Env.

(** The two counts of the summary add up to the size of the result map. *)
Lemma summary_counts_sum sw res :
  let s := (_generate_summary sw res).2 in
  successful s + failed s = Z.of_nat (size res).
Proof. simpl. lia. Qed.

Lemma summary_failed_nonneg sw res :
  0 ≤ failed (_generate_summary sw res).2.
Proof. simpl. pose proof (count_true_le res). lia. Qed.

(** When the agents' names are pairwise distinct, the persisted summary
    counts every agent once: [successful + failed = total_agents]. *)
Lemma summary_counts_distinct_names sw as_completed :
  0 < max_agents sw → agents sw ≠ [] → NoDup (names (agents sw)) →
  as_completed (agents sw) ≡ₚ agents sw →
  ∃ e path s,
    execute isoformat format_2f sw world as_completed = Ok e
    ∧ summary e = Some (path, s)
    ∧ successful s + failed s = total_agents s
    ∧ successful s
      = Z.of_nat (length (filter (λ a, succeeded isoformat format_2f world a = true)
                            (agents sw))).
Proof.
  intros Hmw Hne Hnd Hp.
  rewrite execute_returns by (by left).
  destruct (agents sw) as [|a0 l] eqn:Hag; [done|].
  eexists _, _, _. split; [reflexivity|]. split; [reflexivity|].
  assert (NoDup (outcomes isoformat format_2f world (a0 :: l)).*1) as Hk
    by (by rewrite swarm_outcomes_keys).
  rewrite (insert_all_perm _ Hk _ (swarm_outcomes_perm _ _ _ _ _ Hp)).
  cbn [_generate_summary snd successful failed total_agents agents with_agents].
  rewrite insert_all_size, count_true_distinct by done.
  unfold outcomes. rewrite !length_fmap. split; [lia|].
  f_equal. generalize (a0 :: l). intros l'.
  induction l' as [|a l' IH]; [done|].
  rewrite fmap_cons, !filter_cons. simpl.
  destruct (succeeded isoformat format_2f world a);
    repeat case_decide; try done; simpl; by rewrite ?IH.
Qed.
End SwarmSummary.

(** C1. The summary the swarm persists does not always satisfy
    [successful + failed = total_agents]. The [from-config] command on a
    configuration with two agents named ["fix"] dispatches both (the
    summary lists two agent records, one completed and one failed, and
    [total_agents = 2]), yet [successful + failed = 1]: the two outcomes are
    stored under one key of the result map. *)
Theorem C1_summary_counts_miss_agents_of_equal_name :
  ∃ e path s,
    Swarm.main pretty pretty true "/ws" 4 "20250101_120000"
      (Swarm.FromConfig Scenario.same_name_configs) Scenario.world id
    = (1, Some e)
    ∧ Swarm.summary e = Some (path, s)
    ∧ Swarm.total_agents s = 2
    ∧ Swarm.r_status <$> Swarm.s_agents s = ["completed"; "failed"]%string
    ∧ Swarm.successful s = 0
    ∧ Swarm.failed s = 1
    ∧ Swarm.successful s + Swarm.failed s ≠ Swarm.total_agents s.
Proof.
  eexists _, _, _. split; [vm_compute; reflexivity|].
  split; [vm_compute; reflexivity|]. by vm_compute.
Qed.

(** ** Sequential mode *)

Section RunnerSequential.
Import Runner RunnerSpec.
Variable isoformat : Z → string.
Variable r : TaskRunner.

Local Abbreviation succeeded := (succeeded isoformat r).
Local Abbreviation written := (written isoformat r).
Local Abbreviation outcomes := (outcomes isoformat r).
Local Abbreviation loop := (sequential_loop isoformat r).

Lemma loop_cons stop j rest st :
  loop stop (j :: rest) st
  = let st' := (<[name j.1 := succeeded j]> st.1, st.2 ++ written j) in
    if negb (succeeded j) && stop then st' else loop stop rest st'.
Proof.
  simpl. unfold RunnerSpec.succeeded, RunnerSpec.written.
  by destruct (run_task isoformat r j.1 j.2) as [[[s o] e] f].
Qed.

(** While tasks succeed the loop goes on, whatever the flag. *)
Lemma loop_successes stop pre rest st :
  Forall (λ j, succeeded j = true) pre →
  loop stop (pre ++ rest) st
  = loop stop rest (insert_all (outcomes pre) st.1, st.2 ++ pre ≫= written).
Proof.
  intros H. revert st. induction H as [|j pre Hj _ IH]; intros [m fs].
  - simpl. by rewrite app_nil_r.
  - rewrite <-app_comm_cons, loop_cons. cbv zeta. rewrite Hj. simpl negb.
    rewrite andb_false_l, IH. simpl. by rewrite Hj, <-app_assoc.
Qed.

(** Without the flag every task is run. *)
Lemma loop_no_stop jobs st :
  loop false jobs st
  = (insert_all (outcomes jobs) st.1, st.2 ++ jobs ≫= written).
Proof.
  revert st. induction jobs as [|j l IH]; intros [m fs].
  - simpl. by rewrite app_nil_r.
  - rewrite loop_cons. cbv zeta. rewrite andb_false_r, IH. simpl.
    by rewrite <-app_assoc.
Qed.

(** With the flag, the loop ends at a task that does not succeed. *)
Lemma loop_stop j post st :
  succeeded j = false →
  loop true (j :: post) st = (<[name j.1 := false]> st.1, st.2 ++ written j).
Proof. intros Hj. rewrite loop_cons. cbv zeta. by rewrite Hj. Qed.

Lemma outcomes_successes pre :
  Forall (λ j, succeeded j = true) pre →
  outcomes pre = (λ j : Job, (name j.1, true)) <$> pre.
Proof.
  intros H. unfold RunnerSpec.outcomes. apply list_fmap_ext.
  intros i j Hj. f_equal. eapply Forall_lookup_1 in H; eauto.
Qed.

End RunnerSequential.

(** C3. Sequential mode with [stop_on_failure]: let the tasks [pre] all
    succeed and let the next task [j] not succeed (nonzero exit, timeout or
    error). Then the run ends with [j]: the result map is the one built
    from [pre] with [j]'s name set to [False], the only task logs written
    are those of [pre] and of [j], the whole outcome is the one of running
    [pre ++ [j]] alone, and no task of [post] is run or recorded: a later
    task's name is a key of the map only if one of the tasks run bears the
    same name. *)
Theorem C3_stop_on_failure_halts_at_first_failure
    isoformat r (pre post : list Runner.Job) (j : Runner.Job) :
  Forall (λ j', RunnerSpec.succeeded isoformat r j' = true) pre →
  RunnerSpec.succeeded isoformat r j = false →
  let run := Runner.run_sequential isoformat r (pre ++ j :: post) true in
  run.1 = <[Runner.name j.1 := false]>
            (insert_all ((λ j' : Runner.Job, (Runner.name j'.1, true)) <$> pre) ∅)
  ∧ run.2 = (pre ++ [j]) ≫= RunnerSpec.written isoformat r
  ∧ run = Runner.run_sequential isoformat r (pre ++ [j]) true
  ∧ run.1 !! Runner.name j.1 = Some false
  ∧ (∀ k, k ∈ RunnerSpec.names pre → k ≠ Runner.name j.1 →
       run.1 !! k = Some true)
  ∧ (∀ j', j' ∈ post →
       Runner.name j'.1 ∉ RunnerSpec.names (pre ++ [j]) →
       run.1 !! Runner.name j'.1 = None).
Proof.
  intros Hpre Hj run.
  assert (run = (<[Runner.name j.1 := false]>
                   (insert_all ((λ j' : Runner.Job, (Runner.name j'.1, true)) <$> pre) ∅),
                 (pre ++ [j]) ≫= RunnerSpec.written isoformat r)) as E.
  { subst run. unfold Runner.run_sequential.
    rewrite loop_successes, loop_stop by done. simpl.
    rewrite outcomes_successes by done.
    rewrite bind_app. simpl. by rewrite app_nil_r. }
  assert (Runner.run_sequential isoformat r (pre ++ [j]) true = run) as E'.
  { rewrite E. unfold Runner.run_sequential.
    rewrite loop_successes, loop_stop by done. simpl.
    rewrite outcomes_successes by done.
    rewrite bind_app. simpl. by rewrite app_nil_r. }
  rewrite E' , E. simpl. repeat split.
  - apply lookup_insert_eq.
  - intros k Hk Hne. rewrite lookup_insert_ne by done.
    assert (k ∈ ((λ j' : Runner.Job, (Runner.name j'.1, true)) <$> pre).*1) as Hk'.
    { rewrite <-list_fmap_compose. exact Hk. }
    destruct (insert_all_lookup_is_Some _ _ Hk') as [v Hv].
    rewrite Hv. f_equal.
    rewrite insert_all_list_to_map in Hv.
    apply elem_of_list_to_map_2, elem_of_reverse, list_elem_of_fmap in Hv.
    destruct Hv as (j' & [= _ ->] & _). done.
  - intros j' _ Hnot. unfold RunnerSpec.names in Hnot.
    rewrite fmap_app, elem_of_app in Hnot. simpl in Hnot.
    rewrite lookup_insert_ne by (intros Heq; apply Hnot; right; rewrite Heq; apply list_elem_of_here).
    apply insert_all_lookup_None. rewrite <-list_fmap_compose.
    intros Hin. apply Hnot. by left.
Qed.

(** Scenario B of the specification: tasks [T1] (exit 0), [T2] (exit 1),
    [T3] (exit 0), sequential with [stop_on_failure]. *)
Lemma C3_stop_on_failure_halts_at_first_failure_witness :
  let run := Runner.run_sequential pretty Scenario.runner Scenario.jobs true in
  run.1 = <["T2"%string := false]> (<["T1"%string := true]> ∅)
  ∧ run.1 !! "T1"%string = Some true
  ∧ run.1 !! "T2"%string = Some false
  ∧ run.1 !! "T3"%string = None
  ∧ run.2.*1 = ["copilot-results/task_T1_20250101_120000.log";
                "copilot-results/task_T2_20250101_120000.log"]%string.
Proof.
  assert (Forall (λ j', RunnerSpec.succeeded pretty Scenario.runner j' = true)
            [Scenario.T1]) as Hpre by (repeat constructor).
  assert (RunnerSpec.succeeded pretty Scenario.runner Scenario.T2 = false)
    as Hj by reflexivity.
  destruct (C3_stop_on_failure_halts_at_first_failure
              pretty Scenario.runner [Scenario.T1] [Scenario.T3] Scenario.T2
              Hpre Hj) as (Hres & Hfiles & _ & HT2 & HT1 & HT3).
  change ([Scenario.T1] ++ Scenario.T2 :: [Scenario.T3]) with Scenario.jobs
    in *.
  split; [exact Hres|].
  split; [apply (HT1 "T1"%string); [apply list_elem_of_here | discriminate]|].
  split; [exact HT2|].
  split; [apply (HT3 Scenario.T3); [apply list_elem_of_here | compute_done]|].
  rewrite Hfiles. reflexivity.
Defined.

(** Scenario A of the specification: the same tasks without the flag. *)
Example scenario_A :
  let run := Runner.run_sequential pretty Scenario.runner Scenario.jobs false in
  run.1 !! "T1"%string = Some true
  ∧ run.1 !! "T2"%string = Some false
  ∧ run.1 !! "T3"%string = Some true
  ∧ size run.1 = 3%nat.
Proof. by vm_compute. Qed.

(** ** The execution engine *)

Section Engine.
Import subprocess.

Lemma run_exceeds a b : exceeds a b = true ↔ run a b = TimeoutExpired.
Proof.
  destruct b as [ms rc out err| |msg]; simpl; [|done|done].
  by destruct (1000 * timeout a <? ms).
Qed.


End Engine.




(** The claim of C8 as the specification words it fails for the task
    runner: [TaskRunner.run_task] passes neither [stdin] nor [cwd] to
    [subprocess.run], so the process of task [T1] inherits the
    orchestrator's standard input and its working directory. *)
Lemma C8_runner_process_inherits_stdin_and_cwd :
  subprocess.stdin (Runner.run_task_call Scenario.T1.1) = subprocess.Inherited
  ∧ subprocess.stdin (Runner.run_task_call Scenario.T1.1) ≠ subprocess.DEVNULL
  ∧ subprocess.cwd (Runner.run_task_call Scenario.T1.1) = None.
Proof. by repeat split. Qed.

(** C8, as the code has it. [Agent.run] spawns the process with
    [stdin=subprocess.DEVNULL] and with [cwd] set to the workspace the
    agent was created with, which is the workspace given to the swarm.
    [TaskRunner] has no workspace: [run_task] passes no [cwd], and the
    process runs in the orchestrator's own working directory. *)
Theorem C8_spawn_settings_per_engine :
  (∀ a : Swarm.Agent,
     subprocess.stdin (Swarm.run_call a) = subprocess.DEVNULL
     ∧ subprocess.cwd (Swarm.run_call a) = Some (Swarm.workspace a))
  ∧ (∀ sw name task approval a,
       a ∈ Swarm.agents (Swarm.spawn_agent sw name task approval) →
       a ∈ Swarm.agents sw
       ∨ Swarm.workspace a = Swarm.sw_workspace sw)
  ∧ (∀ task : Runner.CopilotTask,
       subprocess.cwd (Runner.run_task_call task) = None).
Proof.
  split; [done|]. split; [|done].
  intros sw name task approval a. unfold Swarm.spawn_agent. simpl.
  rewrite elem_of_app, list_elem_of_singleton. intros [H| ->]; [by left|by right].
Qed.

Lemma C8_spawn_settings_per_engine_witness :
  Forall (λ a, subprocess.cwd (Swarm.run_call a) = Some "/ws"%string
               ∧ subprocess.stdin (Swarm.run_call a) = subprocess.DEVNULL)
    (Swarm.agents Scenario.quick_swarm)
  ∧ Forall (λ a, Swarm.workspace a = "/ws"%string)
      (Swarm.agents
         (Swarm.spawn_agent Scenario.fresh_swarm "lint" "run the linter" None)).
Proof.
  destruct C8_spawn_settings_per_engine as (Hrun & Hspawn & _).
  split.
  - repeat constructor; apply Hrun.
  - apply Forall_forall. intros a Ha.
    destruct (Hspawn Scenario.fresh_swarm "lint"%string
                "run the linter"%string None a Ha) as [Hin|Hw].
    + by apply elem_of_nil in Hin.
    + exact Hw.
Defined.


(** ** Task construction and loading *)

Section Loading.
Import Runner RunnerSpec.

Lemma parse_entry_init task_id task_data :
  parse_entry (task_id, task_data)
  = p ← td_prompt task_data;
    Some (task_id,
          CopilotTask_init (default task_id (td_name task_data)) p
            (Some (default "--allow-all-tools"%string (td_approval task_data)))
            (Some (default 120 (td_timeout task_data)))
            (Some (default EmptyString (td_description task_data)))).
Proof.
  unfold parse_entry, CopilotTask_init. simpl.
  destruct (td_prompt task_data) as [p|]; [|done]. simpl.
  by destruct (td_description task_data) as [[|c d]|].
Qed.

Lemma parse_tasks_mapM entries :
  parse_tasks entries
  = match mapM parse_entry entries with
    | Some tasks => Ok tasks
    | None => Raise (KeyError "prompt")
    end.
Proof.
  induction entries as [|[task_id task_data] rest IH]; [done|].
  cbn [parse_tasks mapM]. rewrite parse_entry_init, IH.
  destruct (td_prompt task_data) as [p|]; [|done]. simpl.
  by destruct (mapM parse_entry rest).
Qed.

Lemma parse_entry_None e : parse_entry e = None ↔ td_prompt e.2 = None.
Proof. unfold parse_entry. by destruct (td_prompt e.2). Qed.

(** Loading fails exactly when some entry has no [prompt] key, and then
    with [KeyError]. *)
Lemma load_tasks_from_file_raises data :
  (∃ e, load_tasks_from_file data = Raise e)
  ↔ Exists (λ e, td_prompt e.2 = None) (doc_tasks data).
Proof.
  unfold load_tasks_from_file. rewrite parse_tasks_mapM.
  destruct (mapM parse_entry (doc_tasks data)) as [tasks|] eqn:E.
  - split; [by intros [e ?]|]. intros Hex.
    assert (mapM parse_entry (doc_tasks data) = None) as E'.
    { apply mapM_None. eapply Exists_impl; [exact Hex|].
      intros e. apply parse_entry_None. }
    congruence.
  - split; [|by eauto]. intros _. apply mapM_None in E.
    eapply Exists_impl; [exact E|]. intros e. apply parse_entry_None.
Qed.

Lemma load_tasks_from_file_ok data tasks workflows :
  load_tasks_from_file data = Ok (tasks, workflows)
  ↔ mapM parse_entry (doc_tasks data) = Some tasks
    ∧ workflows = doc_workflows data.
Proof.
  unfold load_tasks_from_file. rewrite parse_tasks_mapM.
  destruct (mapM parse_entry (doc_tasks data)) as [tasks'|].
  - split; [by intros [= -> ->]|by intros [[= ->] ->]].
  - split; [done|by intros [? _]].
Qed.
End Loading.

Section LoadedTasks.
Import Runner RunnerSpec.

(** What loading stores for each entry: the task id, the prompt and the
    timeout as written, 120 when the entry has no [timeout] key. *)
Lemma load_tasks_entries data tasks workflows :
  load_tasks_from_file data = Ok (tasks, workflows) →
  Forall2 (λ e t, t.1 = e.1
                  ∧ td_prompt e.2 = Some (prompt t.2)
                  ∧ timeout t.2 = default 120 (td_timeout e.2))
          (doc_tasks data) tasks.
Proof.
  intros [Hm _]%load_tasks_from_file_ok. apply mapM_Some in Hm.
  eapply Forall2_impl; [exact Hm|]. intros e t. unfold parse_entry.
  destruct (td_prompt e.2) as [p|]; [|done]. by intros [= <-].
Qed.

Lemma main_load_raises isoformat r data workflow ids sequential
    stop_on_failure max_workers world sched e :
  load_tasks_from_file data = Raise e →
  main isoformat true r
    (FromFile data workflow ids sequential stop_on_failure max_workers)
    world sched
  = (Uncaught e, []).
Proof. intros H. unfold main. simpl. by rewrite H. Qed.
End LoadedTasks.

(** The claim of C5 as the specification words it fails on a document whose
    entries have an empty prompt, a zero timeout and a negative timeout:
    loading succeeds, the three tasks are constructed with exactly these
    values, and the run dispatches all three (three task logs are
    written). *)
Lemma C5_empty_prompt_and_bad_timeouts_accepted :
  ∃ tasks,
    Runner.load_tasks_from_file Scenario.invalid_doc = Ok (tasks, [])
    ∧ (λ t, (Runner.prompt t.2, Runner.timeout t.2)) <$> tasks
      = [(EmptyString, 120); ("build the app"%string, 0);
         ("run the tests"%string, -5)]
    ∧ let out :=
        Runner.main pretty true Scenario.runner
          (Scenario.run_all Scenario.invalid_doc) Scenario.world id in
      out.1 = Runner.SysExit 1 ∧ length out.2 = 3%nat.
Proof. eexists. split; [vm_compute; reflexivity|]. by vm_compute. Qed.

(** C5, as the code has it. Constructing a task validates nothing:
    [CopilotTask] stores the prompt and the timeout it is given, whatever
    they are. Loading a task document fails exactly when some entry has no
    [prompt] key, with a [KeyError]; otherwise every entry becomes a task
    with the prompt and the timeout as written (120 when absent). A
    failing load ends [main] with that exception before any task is run:
    no task log is written. *)
Theorem C5_construction_validates_nothing :
  (∀ n p a t d,
     let task := Runner.CopilotTask_init n p a t d in
     Runner.name task = n
     ∧ Runner.prompt task = p
     ∧ Runner.timeout task = default 120 t)
  ∧ (∀ data,
       Runner.load_tasks_from_file data
       = match mapM RunnerSpec.parse_entry (Runner.doc_tasks data) with
         | Some tasks => Ok (tasks, Runner.doc_workflows data)
         | None => Raise (KeyError "prompt")
         end)
  ∧ (∀ data,
       (∃ e, Runner.load_tasks_from_file data = Raise e)
       ↔ Exists (λ e, Runner.td_prompt e.2 = None) (Runner.doc_tasks data))
  ∧ (∀ data tasks workflows,
       Runner.load_tasks_from_file data = Ok (tasks, workflows) →
       Forall2 (λ e t, t.1 = e.1
                       ∧ Runner.td_prompt e.2 = Some (Runner.prompt t.2)
                       ∧ Runner.timeout t.2
                         = default 120 (Runner.td_timeout e.2))
               (Runner.doc_tasks data) tasks)
  ∧ (∀ isoformat r data workflow ids sequential stop_on_failure max_workers
       world sched e,
       Runner.load_tasks_from_file data = Raise e →
       Runner.main isoformat true r
         (Runner.FromFile data workflow ids sequential stop_on_failure
            max_workers) world sched
       = (Runner.Uncaught e, [])).
Proof.
  split; [done|]. split.
  { intros data. unfold Runner.load_tasks_from_file.
    rewrite parse_tasks_mapM.
    by destruct (mapM RunnerSpec.parse_entry (Runner.doc_tasks data)). }
  split; [apply load_tasks_from_file_raises|].
  split; [apply load_tasks_entries|].
  intros. by apply main_load_raises.
Qed.

Lemma C5_construction_validates_nothing_witness :
  Runner.load_tasks_from_file Scenario.promptless_doc
  = Raise (KeyError "prompt")
  ∧ Runner.main pretty true Scenario.runner
      (Scenario.run_all Scenario.promptless_doc) Scenario.world id
    = (Runner.Uncaught (KeyError "prompt"), [])
  ∧ Forall2 (λ e t, t.1 = e.1
                    ∧ Runner.td_prompt e.2 = Some (Runner.prompt t.2)
                    ∧ Runner.timeout t.2 = default 120 (Runner.td_timeout e.2))
      (Runner.doc_tasks Scenario.invalid_doc)
      [("empty"%string, Runner.CopilotTask_init "empty" "" None None None);
       ("zero"%string,
        Runner.CopilotTask_init "zero" "build the app" None (Some 0) None);
       ("negative"%string,
        Runner.CopilotTask_init "negative" "run the tests" None (Some (-5)) None)].
Proof.
  destruct C5_construction_validates_nothing as (_ & _ & _ & Hok & Hmain).
  assert (Runner.load_tasks_from_file Scenario.promptless_doc
          = Raise (KeyError "prompt")) as Hraise by reflexivity.
  split; [exact Hraise|]. split.
  - exact (Hmain pretty Scenario.runner Scenario.promptless_doc None [] true
             false 4 Scenario.world id _ Hraise).
  - apply (Hok Scenario.invalid_doc _ []). reflexivity.
Defined.

(** ** Timeouts *)

(** The claim of C6 as the specification words it fails in the agent swarm.
    An agent has no timeout of its own; its process is run with a timeout
    of 900 seconds, so a process that needs 200 seconds, more than the 120
    seconds the claim takes as the default, ends [completed]. *)
Lemma C6_agent_runs_past_120_seconds :
  subprocess.timeout (Swarm.run_call Scenario.agent0) = 900
  ∧ proc Scenario.slow_success = subprocess.Exits 200000 0 "done" ""
  ∧ Swarm.status
      (Swarm.run pretty pretty Scenario.agent0 Scenario.slow_success).1.1
    = Swarm.S_completed
  ∧ (Swarm.run pretty pretty Scenario.agent0 Scenario.slow_success).1.2.1
    = true.
Proof. by vm_compute. Qed.

(** C6, as the code has it. The task runner runs each task with the
    task's own timeout, which is 120 seconds when the task document gives
    none; the agent swarm runs every agent with a timeout of 900 seconds.
    In both, a process that exceeds the timeout it is run with ends as a
    timeout and not as a success: [run_task] returns [False] with the
    timed-out message, [Agent.run] returns [False] and leaves the status
    [timeout]. *)
Theorem C6_timeout_enforced_per_engine :
  (∀ task : Runner.CopilotTask,
     subprocess.timeout (Runner.run_task_call task) = Runner.timeout task)
  ∧ (∀ data tasks workflows,
       Runner.load_tasks_from_file data = Ok (tasks, workflows) →
       Forall2 (λ e t, Runner.timeout t.2
                       = default 120 (Runner.td_timeout e.2))
               (Runner.doc_tasks data) tasks)
  ∧ (∀ a : Swarm.Agent, subprocess.timeout (Swarm.run_call a) = 900)
  ∧ (∀ isoformat r task w,
       subprocess.exceeds (Runner.run_task_call task) (proc w) = true →
       (Runner.run_task isoformat r task w).1
       = (false, EmptyString,
          "Task timed out after " +:+ pretty (Runner.timeout task)
          +:+ " seconds"))
  ∧ (∀ isoformat format_2f a w,
       subprocess.exceeds (Swarm.run_call a) (proc w) = true →
       let out := Swarm.run isoformat format_2f a w in
       Swarm.status out.1.1 = Swarm.S_timeout
       ∧ Swarm.status out.1.1 ≠ Swarm.S_completed
       ∧ out.1.2 = (false, "Task timed out"%string)).
Proof.
  split; [done|]. split.
  { intros data tasks workflows H%load_tasks_entries.
    eapply Forall2_impl; [exact H|]. by intros e t (_ & _ & ?). }
  split; [done|]. split.
  - intros iso r task w H%run_exceeds. unfold Runner.run_task. by rewrite H.
  - intros iso f2 a w H%run_exceeds. unfold Swarm.run. by rewrite H.
Qed.

Lemma C6_timeout_enforced_per_engine_witness :
  (Runner.run_task pretty Scenario.runner Scenario.T1.1 Scenario.hangs).1
  = (false, EmptyString, "Task timed out after 120 seconds"%string)
  ∧ Swarm.status (Swarm.run pretty pretty Scenario.agent0 Scenario.hangs).1.1
    = Swarm.S_timeout
  ∧ Forall2 (λ e t, Runner.timeout t.2 = default 120 (Runner.td_timeout e.2))
      (Runner.doc_tasks Scenario.same_name_doc)
      [("lint"%string, Scenario.mk_task "check" "run the linter");
       ("test"%string, Scenario.mk_task "check" "run the tests")].
Proof.
  destruct C6_timeout_enforced_per_engine as (_ & Hload & _ & Hr & Hs).
  split; [|split].
  - apply (Hr pretty Scenario.runner Scenario.T1.1 Scenario.hangs).
    reflexivity.
  - apply (Hs pretty pretty Scenario.agent0 Scenario.hangs). reflexivity.
  - apply (Hload Scenario.same_name_doc _ []). reflexivity.
Defined.

(** ** Task logs *)

Section Contains.
Import pystr.







End Contains.

Section ContainsMore.
Import pystr.



End ContainsMore.




(** ** Overall success and the exit code *)

Section OverallSuccess.

Lemma exit_code_zero (res : gmap string bool) :
  exit_code res = 0 ↔ all_values res = true.
Proof. unfold exit_code. by destruct (all_values res). Qed.

Lemma all_values_lookup (res : gmap string bool) :
  all_values res = true ↔ ∀ k v, res !! k = Some v → v = true.
Proof.
  unfold all_values. rewrite forallb_forall. split.
  - intros H k v Hk. apply (H (k, v)), list_elem_of_In.
    by apply elem_of_map_to_list.
  - intros H [k v] Hin%list_elem_of_In%elem_of_map_to_list. by apply (H k v).
Qed.

(** No task dispatched: every scheduler returns the empty map, and the
    exit code is 0. *)
Lemma no_task_dispatched isoformat format_2f r sw world stop max_workers
    runner_order swarm_order :
  (0 < max_workers →
   runner_order [] = [] →
   Runner.run_parallel isoformat r [] max_workers runner_order = Ok (∅, []))
  ∧ Runner.run_sequential isoformat r [] stop = (∅, [])
  ∧ (Swarm.agents sw = [] →
     ∃ e, Swarm.execute isoformat format_2f sw world swarm_order = Ok e
          ∧ Swarm.results e = ∅ ∧ Swarm.summary e = None)
  ∧ all_values ∅ = true
  ∧ exit_code ∅ = 0.
Proof.
  split; [|split; [done|split; [|done]]].
  - intros Hmw Hnil. rewrite run_parallel_returns by done. by rewrite Hnil.
  - intros Hsw. eexists. split; [apply execute_returns; by right|].
    by rewrite Hsw.
Qed.

(** For tasks of pairwise distinct names the exit code is 0 exactly when
    every dispatched task succeeded. *)
Lemma exit_code_distinct_names isoformat r (jobs : list Runner.Job)
    max_workers as_completed :
  0 < max_workers →
  NoDup (RunnerSpec.names jobs) → as_completed jobs ≡ₚ jobs →
  ∃ res files,
    Runner.run_parallel isoformat r jobs max_workers as_completed
    = Ok (res, files)
    ∧ (exit_code res = 0
       ↔ ∀ j, j ∈ jobs → RunnerSpec.succeeded isoformat r j = true).
Proof.
  intros Hmw Hnd Hp. eexists _, _.
  split; [by apply run_parallel_returns|].
  rewrite exit_code_zero.
  assert (NoDup (RunnerSpec.outcomes isoformat r jobs).*1) as Hk
    by (by rewrite outcomes_keys).
  rewrite (insert_all_perm _ Hk _ (outcomes_perm _ _ _ _ Hp)).
  rewrite all_values_distinct by done. unfold RunnerSpec.outcomes. split.
  - intros H j Hj. apply (H (Runner.name j.1)).
    apply list_elem_of_fmap. by exists j.
  - intros H k v (j & [= -> ->] & Hj)%list_elem_of_fmap. by apply H.
Qed.

Lemma swarm_exit_code_distinct_names isoformat format_2f world
    (agents completion : list Swarm.Agent) :
  NoDup (SwarmSpec.names agents) → completion ≡ₚ agents →
  exit_code (Swarm.collect isoformat format_2f world completion) = 0
  ↔ ∀ a, a ∈ agents →
      SwarmSpec.succeeded isoformat format_2f world a = true.
Proof.
  intros Hnd Hp. rewrite exit_code_zero, collect_results.
  assert (NoDup (SwarmSpec.outcomes isoformat format_2f world agents).*1)
    as Hk by (by rewrite swarm_outcomes_keys).
  rewrite (insert_all_perm _ Hk _ (swarm_outcomes_perm _ _ _ _ _ Hp)).
  rewrite all_values_distinct by done. unfold SwarmSpec.outcomes. split.
  - intros H a Ha. apply (H (Swarm.name a)).
    apply list_elem_of_fmap. by exists a.
  - intros H k v (a & [= -> ->] & Ha)%list_elem_of_fmap. by apply H.
Qed.
End OverallSuccess.

(** C9. The exit code does not always tell whether every dispatched task
    completed. The [from-config] command on a configuration with two
    agents named ["fix"], where the second agent's process exits with code
    1 and completes first, ends with exit code 0: the summary records the
    statuses [completed] and [failed], but the result map holds the single
    entry ["fix" ↦ True], written last by the first agent. The task runner
    does the same in sequential mode on a document whose two tasks carry
    one name, when the first task fails and the second succeeds. *)
Theorem C9_exit_code_zero_despite_failed_task :
  (∃ e,
     Swarm.main pretty pretty true "/ws" 4 "20250101_120000"
       (Swarm.FromConfig Scenario.same_name_configs) Scenario.world reverse
     = (0, Some e)
     ∧ Swarm.status <$> Swarm.agents (Swarm.swarm e)
       = [Swarm.S_completed; Swarm.S_failed]
     ∧ map_to_list (Swarm.results e) = [("fix"%string, true)]
     ∧ all_values (Swarm.results e) = true)
  ∧
  (Runner.main pretty true Scenario.runner
     (Scenario.run_all Scenario.same_name_doc) Scenario.world_first_fails id).1
  = Runner.SysExit 0
  ∧
  (∃ tasks,
     Runner.load_tasks_from_file Scenario.same_name_doc = Ok (tasks, [])
     ∧ RunnerSpec.succeeded pretty Scenario.runner
         <$> Runner.jobs_of Scenario.world_first_fails tasks.*2
       = [false; true]).
Proof.
  split; [|split].
  - eexists. split; [vm_compute; reflexivity|]. by vm_compute.
  - by vm_compute.
  - eexists. split; [vm_compute; reflexivity|]. by vm_compute.
Qed.

(** Scenario C of the specification: the workflow ["ci"] names the tasks
    ["build"] and ["ghost"]; only ["build"] is defined, and it alone is
    run. *)
Example scenario_C :
  Runner.main pretty true Scenario.runner
    (Runner.FromFile Scenario.ghost_doc (Some "ci"%string) [] false false 4)
    Scenario.world id
  = (Runner.SysExit 0,
     [("copilot-results/task_build_20250101_120000.log"%string,
       Runner.log_completed pretty (Scenario.mk_task "build" "build the app")
         1001 0 "out" "err")]).
Proof. by vm_compute. Qed.

(** ** [str.split] on examples *)

Example split_blank_runs :
  pystr.split ("  --allow-tool  'shell(swift)'" +:+ pystr.nl
               +:+ "--deny-tool write ")
  = ["--allow-tool"; "'shell(swift)'"; "--deny-tool"; "write"]%string.
Proof. reflexivity. Qed.

Example split_empty : pystr.split "" = [] ∧ pystr.split "   " = [].
Proof. by split. Qed.

Example agent_cmd_split :
  Swarm.build_cmd
    (Swarm.Agent_init 0 "a" "check syntax" "allow-tool shell --deny-tool write" "/ws")
  = ["copilot"; "-p"; "check syntax"; "--allow-all-paths";
     "allow-tool"; "shell"; "--deny-tool"; "write"]%string.
Proof. reflexivity. Qed.

Example agent_cmd_single_token :
  Swarm.build_cmd
    (Swarm.Agent_init 0 "a" "check syntax" "--allow-tool 'shell(swift)'" "/ws")
  = ["copilot"; "-p"; "check syntax"; "--allow-all-paths";
     "--allow-tool 'shell(swift)'"]%string.
Proof. reflexivity. Qed.

(** ** Further properties of the task runner *)

Section TaskTable.
Import Runner RunnerSpec RunnerMore.

Lemma parse_entry_to_dict task_id n p a t d :
  parse_entry (task_id, to_dict (CopilotTask_init n p a t d))
  = Some (task_id, CopilotTask_init n p a t d).
Proof.
  unfold parse_entry, to_dict, CopilotTask_init. simpl.
  destruct d as [[|c d]|]; simpl; [|done|]; by destruct p.
Qed.

Lemma assoc_None {A} k (d : list (string * A)) :
  assoc k d = None ↔ k ∉ d.*1.
Proof.
  induction d as [|[k' v] d IH]; simpl.
  - split; [intros _; apply not_elem_of_nil|done].
  - rewrite not_elem_of_cons. destruct (decide (k = k')) as [->|Hne].
    + split; [done|]. by intros [? _].
    + rewrite IH. split; [done|]. by intros [_ ?].
Qed.

Lemma resolve_unknown tasks ids :
  Forall (λ tid, assoc tid tasks = None) ids → resolve tasks ids = [].
Proof.
  unfold resolve. induction 1 as [|tid ids H _ IH]; [done|].
  simpl. by rewrite H.
Qed.
End TaskTable.

(** X1. Writing tasks out with [to_dict] and loading the result gives the
    tasks back: for tasks built by the constructor, a document whose
    [tasks] mapping holds [task.to_dict()] under each task id loads into
    exactly these tasks under these ids, in the same order. *)
Theorem to_dict_load_round_trip
    (tasks : list (string * Runner.CopilotTask)) workflows :
  Forall (λ it, ∃ n p a t d, it.2 = Runner.CopilotTask_init n p a t d) tasks →
  Runner.load_tasks_from_file
    {| Runner.doc_tasks := (λ it, (it.1, RunnerMore.to_dict it.2)) <$> tasks;
       Runner.doc_workflows := workflows |}
  = Ok (tasks, workflows).
Proof.
  intros H. apply load_tasks_from_file_ok. split; [|done]. simpl.
  apply mapM_Some. induction H as [|[id task] l (n & p & a & t & d & E) _ IH].
  - constructor.
  - simpl in E. subst task. rewrite fmap_cons. constructor; [|exact IH].
    apply parse_entry_to_dict.
Qed.

Lemma to_dict_load_round_trip_witness :
  Runner.load_tasks_from_file
    {| Runner.doc_tasks :=
         [("a"%string, RunnerMore.to_dict (Scenario.mk_task "T1" "build the app"));
          ("b"%string,
           RunnerMore.to_dict
             (Runner.CopilotTask_init "T2" "" (Some "--deny-all"%string)
                (Some 5) (Some "nothing to do"%string)))];
       Runner.doc_workflows := [] |}
  = Ok ([("a"%string, Scenario.mk_task "T1" "build the app");
         ("b"%string,
          Runner.CopilotTask_init "T2" "" (Some "--deny-all"%string)
            (Some 5) (Some "nothing to do"%string))], []).
Proof.
  apply (to_dict_load_round_trip
           [("a"%string, Scenario.mk_task "T1" "build the app");
            ("b"%string,
             Runner.CopilotTask_init "T2" "" (Some "--deny-all"%string)
               (Some 5) (Some "nothing to do"%string))] []).
  repeat constructor; simpl; by eexists _, _, _, _, _.
Defined.

(** X2. The task ids asked for are resolved against the loaded table in the
    order given: the resolved tasks are, one for one and in order, the
    tasks stored under those of the ids that the table defines; an id the
    table does not define contributes nothing. *)
Theorem resolve_keeps_known_ids_in_order
    (tasks : list (string * Runner.CopilotTask)) (ids : list string) :
  Forall2 (λ tid task, Runner.assoc tid tasks = Some task)
    (filter (λ tid, tid ∈ tasks.*1) ids) (Runner.resolve tasks ids)
  ∧ (length (Runner.resolve tasks ids) ≤ length ids)%nat.
Proof.
  unfold Runner.resolve. induction ids as [|tid ids [IH1 IH2]]; [by split|].
  rewrite filter_cons. simpl.
  destruct (Runner.assoc tid tasks) as [task|] eqn:E.
  - assert (tid ∈ tasks.*1) as Hin.
    { destruct (decide (tid ∈ tasks.*1)) as [|Hn]; [done|].
      apply assoc_None in Hn. congruence. }
    rewrite decide_True by done. simpl.
    split; [by constructor|exact (proj1 (Nat.succ_le_mono _ _) IH2)].
  - rewrite decide_False by (by apply assoc_None).
    split; [done|exact (Nat.le_le_succ_r _ _ IH2)].
Qed.

(** X3. A run asked for task ids none of which the document defines
    dispatches nothing and still ends with exit code 0. *)
Theorem unknown_task_ids_exit_zero isoformat r data tasks workflows
    (ids : list string) sequential stop_on_failure max_workers world
    (as_completed : list Runner.Job → list Runner.Job) :
  Runner.load_tasks_from_file data = Ok (tasks, workflows) →
  ids ≠ [] →
  Forall (λ tid, tid ∉ tasks.*1) ids →
  sequential = true ∨ (0 < max_workers ∧ as_completed [] = []) →
  Runner.main isoformat true r
    (Runner.FromFile data None ids sequential stop_on_failure max_workers)
    world as_completed
  = (Runner.SysExit 0, []).
Proof.
  intros Hload Hne Hun Hmode. unfold Runner.main. simpl. rewrite Hload.
  unfold Runner.select. simpl.
  destruct ids as [|tid ids']; [done|].
  rewrite resolve_unknown
    by (eapply Forall_impl; [exact Hun|]; intros ?; apply assoc_None).
  destruct Hmode as [->|[Hmw Hnil]]; simpl.
  - done.
  - destruct sequential; simpl; [done|].
    unfold Runner.run_parallel, ThreadPoolExecutor.
    destruct (Z.leb_spec max_workers 0); [lia|]. unfold Runner.jobs_of.
    change (imap _ []) with (@nil Runner.Job). by rewrite Hnil.
Qed.

Lemma unknown_task_ids_exit_zero_witness :
  Runner.main pretty true Scenario.runner
    (Runner.FromFile Scenario.ghost_doc None ["ghost"; "phantom"]%string
       false true 4) Scenario.world id
  = (Runner.SysExit 0, []).
Proof.
  eapply (unknown_task_ids_exit_zero pretty Scenario.runner Scenario.ghost_doc).
  - reflexivity.
  - done.
  - repeat constructor; compute_done.
  - right. by split.
Defined.

(** X4. A workflow name the document does not define ends the run with
    exit code 1 before any task is dispatched; a workflow entry without a
    [tasks] key ends it with an uncaught [KeyError]. *)
Theorem workflow_lookup_failures isoformat r data tasks workflows
    (w : string) ids sequential stop_on_failure max_workers world
    as_completed :
  Runner.load_tasks_from_file data = Ok (tasks, workflows) →
  w ≠ EmptyString →
  (Runner.assoc w workflows = None →
   Runner.main isoformat true r
     (Runner.FromFile data (Some w) ids sequential stop_on_failure max_workers)
     world as_completed
   = (Runner.SysExit 1, []))
  ∧ (∀ wf, Runner.assoc w workflows = Some wf → Runner.wf_tasks wf = None →
     Runner.main isoformat true r
       (Runner.FromFile data (Some w) ids sequential stop_on_failure
          max_workers) world as_completed
     = (Runner.Uncaught (KeyError "tasks"), [])).
Proof.
  intros Hload Hw. unfold Runner.main. simpl. rewrite Hload.
  unfold Runner.select. simpl.
  destruct w as [|c w]; [done|]. simpl. split.
  - by intros ->.
  - intros wf -> Hwf. by rewrite Hwf.
Qed.

Lemma workflow_lookup_failures_witness :
  Runner.main pretty true Scenario.runner
    (Runner.FromFile Scenario.ghost_doc (Some "nightly"%string) [] false
       false 4) Scenario.world id
  = (Runner.SysExit 1, []).
Proof.
  eapply (proj1 (workflow_lookup_failures pretty Scenario.runner
                   Scenario.ghost_doc _ _ "nightly" [] false false 4
                   Scenario.world id eq_refl ltac:(done))).
  reflexivity.
Defined.

(** X5. When a workflow is named, the task ids and the [--sequential] flag
    given on the command line play no part: the tasks and the mode are the
    workflow's. *)
Theorem workflow_overrides_command_line isoformat r data (w : string)
    ids ids' sequential sequential' stop_on_failure max_workers world
    as_completed :
  w ≠ EmptyString →
  Runner.main isoformat true r
    (Runner.FromFile data (Some w) ids sequential stop_on_failure max_workers)
    world as_completed
  = Runner.main isoformat true r
      (Runner.FromFile data (Some w) ids' sequential' stop_on_failure
         max_workers) world as_completed.
Proof.
  intros Hw. unfold Runner.main. simpl.
  destruct (Runner.load_tasks_from_file data) as [[tasks workflows]|e]; [|done].
  unfold Runner.select. simpl. by destruct w.
Qed.

Lemma workflow_overrides_command_line_witness :
  Runner.main pretty true Scenario.runner
    (Runner.FromFile Scenario.ghost_doc (Some "ci"%string) ["ghost"%string]
       false false 4) Scenario.world id
  = Runner.main pretty true Scenario.runner
      (Runner.FromFile Scenario.ghost_doc (Some "ci"%string) [] true false 4)
      Scenario.world id.
Proof. by apply workflow_overrides_command_line. Defined.

Section ResultMapsMore.
Implicit Types (kvs : list (string * bool)) (m : gmap string bool).

Lemma insert_all_dom kvs : dom (insert_all kvs ∅) = list_to_set kvs.*1.
Proof.
  apply set_eq. intros k. rewrite elem_of_dom, elem_of_list_to_set. split.
  - intros Hk. destruct (decide (k ∈ kvs.*1)) as [|Hn]; [done|].
    apply insert_all_lookup_None in Hn. rewrite Hn in Hk. by destruct Hk.
  - apply insert_all_lookup_is_Some.
Qed.

Lemma insert_all_app kvs kvs' m :
  insert_all (kvs ++ kvs') m = insert_all kvs' (insert_all kvs m).
Proof. unfold insert_all. apply foldl_app. Qed.

Lemma insert_all_lookup_notin kvs m k :
  k ∉ kvs.*1 → insert_all kvs m !! k = m !! k.
Proof.
  revert m. induction kvs as [|[k' v] kvs IH]; intros m Hk; [done|].
  rewrite fmap_cons, not_elem_of_cons in Hk. destruct Hk as [Hne Hk].
  change (insert_all ((k', v) :: kvs) m) with (insert_all kvs (<[k' := v]> m)).
  rewrite IH by done. by apply lookup_insert_ne.
Qed.

(** The entry of a key is the value written last under it. *)
Lemma insert_all_last kvs kvs' k v m :
  k ∉ kvs'.*1 → insert_all (kvs ++ (k, v) :: kvs') m !! k = Some v.
Proof.
  intros Hk. rewrite insert_all_app.
  change (insert_all ((k, v) :: kvs') (insert_all kvs m))
    with (insert_all kvs' (<[k := v]> (insert_all kvs m))).
  rewrite insert_all_lookup_notin by done. apply lookup_insert_eq.
Qed.

Lemma size_list_to_set_le (l : list string) :
  (size (list_to_set l : gset string) ≤ length l)%nat.
Proof.
  induction l as [|x l IH]; [by rewrite list_to_set_nil, size_empty|].
  rewrite list_to_set_cons. cbn [length].
  destruct (decide (x ∈ l)) as [Hin|Hn].
  - assert ({[x]} ∪ list_to_set l = (list_to_set l : gset string)) as ->
      by (by apply subseteq_union_1_L, singleton_subseteq_l,
               elem_of_list_to_set).
    by apply Nat.le_le_succ_r.
  - rewrite size_union by set_solver. rewrite size_singleton.
    by apply le_n_S.
Qed.

Lemma size_list_to_set_eq (l : list string) :
  size (list_to_set l : gset string) = length l ↔ NoDup l.
Proof.
  split; [|apply size_list_to_set].
  induction l as [|x l IH]; [constructor|].
  rewrite list_to_set_cons. cbn [length].
  destruct (decide (x ∈ l)) as [Hin|Hn].
  - assert ({[x]} ∪ list_to_set l = (list_to_set l : gset string)) as ->
      by (by apply subseteq_union_1_L, singleton_subseteq_l,
               elem_of_list_to_set).
    pose proof (size_list_to_set_le l) as Hle. intros Heq.
    rewrite Heq in Hle. exfalso. by apply (Nat.nle_succ_diag_l (length l)).
  - rewrite size_union by set_solver. rewrite size_singleton.
    intros [= Heq]. constructor; [done|by apply IH].
Qed.

Lemma insert_all_size_le kvs : (size (insert_all kvs ∅) ≤ length kvs)%nat.
Proof.
  rewrite <-size_dom, insert_all_dom, <-(length_fmap fst kvs).
  apply size_list_to_set_le.
Qed.

Lemma insert_all_size_eq kvs :
  size (insert_all kvs ∅) = length kvs ↔ NoDup kvs.*1.
Proof.
  rewrite <-size_dom, insert_all_dom, <-(length_fmap fst kvs).
  apply size_list_to_set_eq.
Qed.

Lemma all_values_insert_false m k : all_values (<[k := false]> m) = false.
Proof.
  destruct (all_values (<[k := false]> m)) eqn:E; [|done].
  pose proof (proj1 (all_values_lookup _) E k false) as H.
  rewrite lookup_insert_eq in H. by specialize (H eq_refl).
Qed.

Lemma all_values_insert_all_true kvs :
  Forall (λ kv, kv.2 = true) kvs → all_values (insert_all kvs ∅) = true.
Proof.
  intros H. apply all_values_lookup. intros k v Hk.
  rewrite insert_all_list_to_map in Hk.
  apply elem_of_list_to_map_2 in Hk. rewrite elem_of_reverse in Hk.
  rewrite Forall_forall in H. by apply (H (k, v)).
Qed.
End ResultMapsMore.

Section RunnerSchedulersMore.
Import Runner RunnerSpec RunnerMore.
Variable isoformat : Z → string.
Variable r : TaskRunner.

Local Abbreviation succeeded := (succeeded isoformat r).
Local Abbreviation written := (written isoformat r).
Local Abbreviation outcomes := (outcomes isoformat r).




Lemma loop_until_first_failure jobs st :
  sequential_loop isoformat r true jobs st
  = sequential_loop isoformat r false (until_first_failure succeeded jobs) st.
Proof.
  revert st. induction jobs as [|j l IH]; intros st; [done|].
  rewrite loop_cons. cbn [until_first_failure]. cbv zeta.
  destruct (succeeded j) eqn:E.
  - rewrite loop_cons. cbv zeta. rewrite E. simpl. apply IH.
  - rewrite loop_cons. cbv zeta. by rewrite E.
Qed.

Lemma until_first_failure_spec jobs :
  (Forall (λ j, succeeded j = true) jobs
   ∧ until_first_failure succeeded jobs = jobs)
  ∨ (∃ pre j post, jobs = pre ++ j :: post
                   ∧ until_first_failure succeeded jobs = pre ++ [j]
                   ∧ Forall (λ j', succeeded j' = true) pre
                   ∧ succeeded j = false).
Proof.
  induction jobs as [|j l IH]; [by left|]. simpl.
  destruct (succeeded j) eqn:E.
  - destruct IH as [[H ->]|(pre & j' & post & -> & -> & Hpre & Hj')].
    + left. split; [by constructor|done].
    + right. exists (j :: pre), j', post.
      split; [done|]. split; [done|]. split; [by constructor|done].
  - right. exists [], j, l. by repeat split.
Qed.
End RunnerSchedulersMore.





(** X8. Sequential mode with [stop_on_failure] does what sequential mode
    without the flag does on the tasks up to and including the first one
    that does not succeed, and on all tasks when every task succeeds. *)
Theorem stop_on_failure_is_a_prefix_run isoformat r (jobs : list Runner.Job) :
  Runner.run_sequential isoformat r jobs true
  = Runner.run_sequential isoformat r
      (RunnerMore.until_first_failure (RunnerSpec.succeeded isoformat r) jobs)
      false.
Proof. unfold Runner.run_sequential. apply loop_until_first_failure. Qed.

(** X9. In sequential mode with [stop_on_failure] the exit code is 0
    exactly when every task succeeded, also when tasks share a name. *)
Theorem stop_on_failure_exit_code isoformat r (jobs : list Runner.Job) :
  exit_code (Runner.run_sequential isoformat r jobs true).1 = 0
  ↔ Forall (λ j, RunnerSpec.succeeded isoformat r j = true) jobs.
Proof.
  unfold Runner.run_sequential.
  rewrite loop_until_first_failure, loop_no_stop.
  rewrite exit_code_zero. cbn [fst].
  destruct (until_first_failure_spec isoformat r jobs)
    as [[Hall ->]|(pre & j & post & Hjobs & Hpre & Hsucc & Hj)].
  - split; [done|]. intros _. apply all_values_insert_all_true.
    unfold RunnerSpec.outcomes. apply Forall_fmap.
    eapply Forall_impl; [exact Hall|]. by intros j.
  - rewrite Hpre. unfold RunnerSpec.outcomes. rewrite fmap_app. simpl.
    rewrite insert_all_app. rewrite Hj.
    change (insert_all [(Runner.name j.1, false)] ?m)
      with (<[Runner.name j.1 := false]> m).
    rewrite all_values_insert_false. split; [done|]. intros Hall.
    rewrite Hjobs, Forall_app, Forall_cons in Hall.
    destruct Hall as (_ & Hj' & _). congruence.
Qed.

(** X10. Under one name the result map keeps the outcome that is written
    last: the entry of a task's name is that task's outcome when no task
    of the same name completes after it. Both collectors. *)
Theorem last_completed_task_wins :
  (∀ isoformat r (before after : list Runner.Job) (j : Runner.Job),
     Runner.name j.1 ∉ RunnerSpec.names after →
     (Runner.collect isoformat r (before ++ j :: after)).1
       !! Runner.name j.1
     = Some (RunnerSpec.succeeded isoformat r j))
  ∧ (∀ isoformat format_2f world (before after : list Swarm.Agent) a,
       Swarm.name a ∉ SwarmSpec.names after →
       Swarm.collect isoformat format_2f world (before ++ a :: after)
         !! Swarm.name a
       = Some (SwarmSpec.succeeded isoformat format_2f world a)).
Proof.
  split.
  - intros iso r before after j Hn. rewrite runner_collect. cbn [fst].
    unfold RunnerSpec.outcomes. rewrite fmap_app, fmap_cons.
    apply insert_all_last. by rewrite <-list_fmap_compose.
  - intros iso f2 world before after a Hn. rewrite collect_results.
    unfold SwarmSpec.outcomes. rewrite fmap_app, fmap_cons.
    apply insert_all_last. by rewrite <-list_fmap_compose.
Qed.

Lemma last_completed_task_wins_witness :
  (Runner.collect pretty Scenario.runner
     [(Scenario.mk_task "check" "run the linter", Scenario.exits 1);
      (Scenario.mk_task "check" "run the tests", Scenario.exits 0)]).1
    !! "check"%string
  = Some true.
Proof.
  apply (proj1 last_completed_task_wins pretty Scenario.runner
           [(Scenario.mk_task "check" "run the linter", Scenario.exits 1)] []
           (Scenario.mk_task "check" "run the tests", Scenario.exits 0)).
  apply not_elem_of_nil.
Defined.

(** ** Further properties of the agent swarm *)

Section Spawning.
Import Swarm SwarmMore.

Lemma spawn_all_agents sw es :
  agents (spawn_all sw es)
  = agents sw
    ++ imap (λ i e, spawned (sw_workspace sw) (length (agents sw) + i) e) es
  ∧ sw_workspace (spawn_all sw es) = sw_workspace sw
  ∧ max_agents (spawn_all sw es) = max_agents sw
  ∧ timestamp (spawn_all sw es) = timestamp sw
  ∧ results_dir (spawn_all sw es) = results_dir sw.
Proof.
  revert sw. induction es as [|e es IH]; intros sw.
  - simpl. by rewrite app_nil_r.
  - change (spawn_all sw (e :: es))
      with (spawn_all (spawn_agent sw e.1.1 e.1.2 e.2) es).
    destruct (IH (spawn_agent sw e.1.1 e.1.2 e.2)) as (-> & -> & -> & -> & ->).
    split; [|done]. cbn [spawn_agent with_agents agents sw_workspace].
    rewrite <-app_assoc, length_app. cbn [length app imap].
    rewrite Nat.add_0_r. do 2 f_equal.
    apply imap_ext. intros i x _. simpl.
    replace (length (agents sw) + 1 + i)%nat
      with (length (agents sw) + S i)%nat by lia.
    done.
Qed.

Lemma spawn_all_fresh ws m ts es :
  agents (spawn_all (AgentSwarm_init ws m ts) es) = imap (spawned ws) es.
Proof.
  destruct (spawn_all_agents (AgentSwarm_init ws m ts) es) as [-> _].
  simpl. done.
Qed.

Lemma spawn_quick_from k sw tasks approval :
  foldl (λ sw0 (it : nat * string),
           spawn_agent sw0 ("agent-" +:+ pretty it.1) it.2 (Some approval))
    sw (imap (λ (i : nat) task, ((k + i)%nat, task)) tasks)
  = spawn_all sw
      (imap (λ (i : nat) task,
               ("agent-" +:+ pretty (k + i)%nat, task, Some approval))
         tasks).
Proof.
  revert k sw. induction tasks as [|t tasks IH]; intros k sw; [done|].
  rewrite !imap_cons. unfold spawn_all. cbn [foldl fst snd].
  rewrite (imap_ext ((λ (i : nat) (task : string), ((k + i)%nat, task)) ∘ S)
             (λ (i : nat) task, ((S k + i)%nat, task)) tasks).
  2: { intros i x _. simpl. f_equal. lia. }
  rewrite (imap_ext
             ((λ (i : nat) task,
                 ("agent-" +:+ pretty (k + i)%nat, task, Some approval)) ∘ S)
             (λ (i : nat) task,
                ("agent-" +:+ pretty (S k + i)%nat, task, Some approval))
             tasks).
  2: { intros i x _. simpl. by rewrite Nat.add_succ_r. }
  apply IH.
Qed.

Lemma spawn_quick_spawn_all sw tasks approval :
  spawn_quick sw tasks approval
  = spawn_all sw
      (imap (λ (i : nat) task, ("agent-" +:+ pretty i, task, Some approval))
         tasks).
Proof. apply (spawn_quick_from 0). Qed.

Lemma spawn_configs_entries sw configs :
  match mapM config_entry configs with
  | Some es => spawn_configs sw configs = Ok (spawn_all sw es)
  | None => ∃ e, spawn_configs sw configs = Raise e
  end.
Proof.
  revert sw. induction configs as [|c cs IH]; intros sw; [done|].
  cbn [mapM spawn_configs].
  destruct (ac_name c) as [n|] eqn:En.
  2: { assert (config_entry c = None) as ->
         by (unfold config_entry; by rewrite En).
       by eexists. }
  destruct (ac_task c) as [t|] eqn:Et.
  2: { assert (config_entry c = None) as ->
         by (unfold config_entry; rewrite En; simpl; by rewrite Et).
       by eexists. }
  assert (config_entry c = Some (n, t, ac_approval c)) as ->
    by (unfold config_entry; rewrite En; simpl; by rewrite Et).
  specialize (IH (spawn_agent sw n t (ac_approval c))). simpl.
  by destruct (mapM config_entry cs) as [es|].
Qed.
End Spawning.

Section Digits.
Import pytext.

Lemma pretty_N_char_digit x : isdigit (pretty_N_char x) = true.
Proof.
  destruct x as [|p]; [done|].
  repeat (destruct p as [p|p|]; try done).
Qed.

Lemma pretty_N_go_digits x s :
  all_chars isdigit s = true → all_chars isdigit (pretty_N_go x s) = true.
Proof.
  revert s. induction (N.lt_wf_0 x) as [x _ IH]; intros s Hs.
  destruct (decide (x = 0)%N) as [->|Hx]; [by rewrite pretty_N_go_0|].
  rewrite pretty_N_go_step by lia. apply IH.
  - apply N.div_lt; lia.
  - cbn [all_chars]. by rewrite pretty_N_char_digit.
Qed.

Lemma pretty_nat_digits (n : nat) : all_chars isdigit (pretty n) = true.
Proof.
  unfold pretty, pretty_nat, pretty, pretty_N.
  destruct (decide (N.of_nat n = 0)%N); [done|]. by apply pretty_N_go_digits.
Qed.

(** Two runs of digits followed by an underscore: equal texts have equal
    runs of digits. *)
Lemma digits_then_underscore s1 s2 r1 r2 :
  all_chars isdigit s1 = true → all_chars isdigit s2 = true →
  s1 +:+ String "_" r1 = s2 +:+ String "_" r2 → s1 = s2.
Proof.
  revert s2. induction s1 as [|c1 s1 IH]; intros [|c2 s2] H1 H2 E.
  - done.
  - exfalso. change (String "_" r1 = String c2 (s2 +:+ String "_" r2)) in E.
    injection E as <- _. by cbn in H2.
  - exfalso. change (String c1 (s1 +:+ String "_" r1) = String "_" r2) in E.
    injection E as -> _. by cbn in H1.
  - change (String c1 (s1 +:+ String "_" r1)
            = String c2 (s2 +:+ String "_" r2)) in E.
    injection E as -> E. f_equal. cbn [all_chars] in H1, H2.
    apply andb_true_iff in H1 as [_ H1]. apply andb_true_iff in H2 as [_ H2].
    by apply IH.
Qed.



Lemma NoDup_imap_index {A B} (f : nat → A → B) (l : list A) :
  (∀ i j x y, f i x = f j y → i = j) → NoDup (imap f l).
Proof.
  revert f. induction l as [|x l IH]; intros f Hf; [constructor|].
  rewrite imap_cons. constructor.
  - intros (i & y & E & _)%elem_of_lookup_imap. by apply Hf in E.
  - apply IH. intros i j x' y' E. apply Hf in E. lia.
Qed.
End Digits.

Section SwarmFacts.
Import Swarm SwarmSpec SwarmMore.

Lemma log_file_spawned_inj ws i j e e' :
  log_file (spawned ws i e) = log_file (spawned ws j e') → i = j.
Proof.
  unfold spawned, Agent_init. cbn [log_file]. intros E.
  apply (inj (append ws)) in E. apply (inj (append "/agent_")) in E.
  change (pretty i +:+ String "_" (e.1.1 +:+ ".log")
          = pretty j +:+ String "_" (e'.1.1 +:+ ".log")) in E.
  apply digits_then_underscore in E; [|apply pretty_nat_digits..].
  by apply (inj pretty).
Qed.

Lemma after_fields isoformat format_2f world a :
  let a' := after isoformat format_2f world a in
  agent_id a' = agent_id a ∧ name a' = name a ∧ task a' = task a
  ∧ approval a' = approval a ∧ workspace a' = workspace a
  ∧ log_file a' = log_file a
  ∧ terminal (status a') = true
  ∧ start_time a' = Some (t_start (world (agent_id a)))
  ∧ end_time a' = Some (t_end (world (agent_id a))).
Proof.
  unfold after, run_in, run.
  destruct (subprocess.run (run_call a) (proc (world (agent_id a))))
    as [rc o e| |msg]; simpl; [|done..].
  by destruct (rc =? 0).
Qed.
End SwarmFacts.

(** X11. The counts of the persisted summary are never negative and never
    add up to more than the number of agents; they add up to exactly that
    number if and only if the agents' names are pairwise distinct. *)
Theorem summary_counts_complete_iff_distinct_names isoformat format_2f sw
    world (as_completed : list Swarm.Agent → list Swarm.Agent) :
  0 < Swarm.max_agents sw → Swarm.agents sw ≠ [] →
  as_completed (Swarm.agents sw) ≡ₚ Swarm.agents sw →
  ∃ e path s,
    Swarm.execute isoformat format_2f sw world as_completed = Ok e
    ∧ Swarm.summary e = Some (path, s)
    ∧ 0 ≤ Swarm.successful s
    ∧ 0 ≤ Swarm.failed s
    ∧ Swarm.successful s + Swarm.failed s ≤ Swarm.total_agents s
    ∧ (Swarm.successful s + Swarm.failed s = Swarm.total_agents s
       ↔ NoDup (SwarmSpec.names (Swarm.agents sw))).
Proof.
  intros Hmw Hne Hp. rewrite execute_returns by (by left).
  destruct (Swarm.agents sw) as [|a0 l] eqn:Hag; [done|].
  set (ags := a0 :: l) in *.
  eexists _, _, _. split; [reflexivity|]. split; [reflexivity|].
  cbn [Swarm._generate_summary snd Swarm.successful Swarm.failed
       Swarm.total_agents Swarm.agents Swarm.with_agents].
  set (kvs := SwarmSpec.outcomes isoformat format_2f world (as_completed ags)).
  pose proof (count_true_le (insert_all kvs ∅)) as Hc.
  pose proof (insert_all_size_le kvs) as Hs.
  assert (length kvs = length ags) as Hl.
  { unfold kvs, SwarmSpec.outcomes. by rewrite length_fmap, Hp. }
  rewrite length_fmap.
  split; [lia|]. split; [lia|]. split; [lia|].
  assert (NoDup kvs.*1 ↔ NoDup (SwarmSpec.names ags)) as <-.
  { unfold kvs. rewrite swarm_outcomes_keys. unfold SwarmSpec.names.
    by rewrite Hp. }
  rewrite <-insert_all_size_eq. lia.
Qed.

Lemma summary_counts_complete_iff_distinct_names_witness :
  ∃ e path s,
    Swarm.execute pretty pretty Scenario.quick_swarm Scenario.world reverse
    = Ok e
    ∧ Swarm.summary e = Some (path, s)
    ∧ Swarm.successful s + Swarm.failed s ≤ Swarm.total_agents s.
Proof.
  destruct (summary_counts_complete_iff_distinct_names pretty pretty
              Scenario.quick_swarm Scenario.world reverse
              ltac:(done) ltac:(done) (reverse_Permutation _))
    as (e & path & s & E & Hs & _ & _ & Hle & _).
  exists e, path, s. split; [exact E|]. split; [exact Hs|exact Hle].
Defined.

(** X12. Agents are numbered by their position: in a swarm filled by
    [spawn_agent] from a new swarm, the [i]-th agent has [agent_id = i],
    the swarm's workspace, the name and task it was spawned with, and is
    [pending] with no duration. The [quick] command names its agents
    [agent-0], [agent-1], ... in the order of its arguments. *)
Theorem spawned_agents_are_numbered_by_position ws m ts
    (entries : list SwarmMore.Entry) (tasks : list string) approval :
  let sw := SwarmMore.spawn_all (Swarm.AgentSwarm_init ws m ts) entries in
  Swarm.agent_id <$> Swarm.agents sw = seq 0 (length entries)
  ∧ Swarm.name <$> Swarm.agents sw = (λ e : SwarmMore.Entry, e.1.1) <$> entries
  ∧ Swarm.task <$> Swarm.agents sw = (λ e : SwarmMore.Entry, e.1.2) <$> entries
  ∧ Forall (λ a, Swarm.status a = Swarm.S_pending
                 ∧ Swarm.workspace a = ws
                 ∧ Swarm.duration a = 0) (Swarm.agents sw)
  ∧ Swarm.agents (Swarm.spawn_quick (Swarm.AgentSwarm_init ws m ts) tasks approval)
    = imap (λ i task, Swarm.Agent_init i ("agent-" +:+ pretty i) task approval ws)
        tasks.
Proof.
  cbv zeta. rewrite spawn_all_fresh.
  split.
  { rewrite fmap_imap. rewrite (imap_ext _ (λ i _, i) entries) by done.
    rewrite imap_seq_0. by rewrite list_fmap_id. }
  split.
  { rewrite fmap_imap.
    by rewrite (imap_ext _ (const (λ e : SwarmMore.Entry, e.1.1)) entries),
         imap_const. }
  split.
  { rewrite fmap_imap.
    by rewrite (imap_ext _ (const (λ e : SwarmMore.Entry, e.1.2)) entries),
         imap_const. }
  split.
  { apply Forall_forall. intros a (i & e & -> & _)%elem_of_lookup_imap. done. }
  rewrite spawn_quick_spawn_all, spawn_all_fresh.
  apply list_eq. intros i. rewrite !list_lookup_imap.
  by destruct (tasks !! i).
Qed.

(** X13. Agents of one swarm never share a log file, even when they share
    a name: the log paths of the agents spawned into a new swarm are
    pairwise distinct. *)
Theorem agent_log_files_are_distinct ws m ts (entries : list SwarmMore.Entry) :
  NoDup (Swarm.log_file
           <$> Swarm.agents
                 (SwarmMore.spawn_all (Swarm.AgentSwarm_init ws m ts) entries)).
Proof.
  rewrite spawn_all_fresh, fmap_imap. apply NoDup_imap_index.
  intros i j e e'. apply log_file_spawned_inj.
Qed.

Section SwarmFactsMore.
Import Swarm SwarmSpec SwarmMore.

Lemma succeeded_completed isoformat format_2f world a :
  succeeded isoformat format_2f world a = true
  ↔ status (after isoformat format_2f world a) = S_completed.
Proof.
  unfold succeeded, after, run_in, run.
  destruct (subprocess.run (run_call a) (proc (world (agent_id a))))
    as [rc o e| |msg]; simpl; [|done..].
  by destruct (rc =? 0).
Qed.

Lemma quick_names_distinct ws m ts tasks approval :
  NoDup (names (agents (spawn_quick (AgentSwarm_init ws m ts) tasks approval))).
Proof.
  rewrite spawn_quick_spawn_all, spawn_all_fresh. unfold names.
  rewrite fmap_imap.
  assert (imap (λ n, name ∘ spawned ws n)
            (imap (λ (i : nat) (task : string),
                     ("agent-" +:+ pretty i, task, Some approval)) tasks)
          = imap (λ (i : nat) (_ : string), "agent-" +:+ pretty i) tasks) as ->.
  { apply list_eq. intros i. rewrite !list_lookup_imap.
    by destruct (tasks !! i). }
  apply NoDup_imap_index. intros i j _ _ E.
  apply (inj (append "agent-")) in E. by apply (inj pretty) in E.
Qed.

Lemma spawn_quick_length ws m ts tasks approval :
  length (agents (spawn_quick (AgentSwarm_init ws m ts) tasks approval))
  = length tasks.
Proof.
  by rewrite spawn_quick_spawn_all, spawn_all_fresh, !length_imap.
Qed.
End SwarmFactsMore.


(** X15. In [quick] mode the agents' names are pairwise distinct, so the
    run is accounted for in full: with at least one task and a pool of at
    least one worker, the summary is written, its total is the number of
    tasks, [successful + failed] equals the total, and the exit code is 0
    exactly when every agent ended [completed]. *)
Theorem quick_mode_accounts_for_every_agent isoformat format_2f ws m ts
    (tasks : list string) approval world
    (as_completed : list Swarm.Agent → list Swarm.Agent) :
  0 < m → tasks ≠ [] → (∀ l, as_completed l ≡ₚ l) →
  ∃ code e path s,
    Swarm.main isoformat format_2f true ws m ts (Swarm.Quick tasks approval)
      world as_completed
    = (code, Some e)
    ∧ Swarm.summary e = Some (path, s)
    ∧ Swarm.total_agents s = Z.of_nat (length tasks)
    ∧ Swarm.successful s + Swarm.failed s = Swarm.total_agents s
    ∧ (code = 0
       ↔ Forall (λ a, Swarm.status a = Swarm.S_completed)
           (Swarm.agents (Swarm.swarm e))).
Proof.
  intros Hm Hne Hp. unfold Swarm.main, Swarm.execute_and_exit. simpl.
  set (sw := Swarm.spawn_quick (Swarm.AgentSwarm_init ws m ts) tasks approval).
  assert (Swarm.max_agents sw = m) as Hmax.
  { unfold sw. rewrite spawn_quick_spawn_all.
    by destruct (spawn_all_agents (Swarm.AgentSwarm_init ws m ts)
                   (imap (λ (i : nat) task,
                            ("agent-" +:+ pretty i, task, Some approval)) tasks))
      as (_ & _ & -> & _). }
  pose proof (quick_names_distinct ws m ts tasks approval) as Hnd.
  pose proof (spawn_quick_length ws m ts tasks approval) as Hlen.
  fold sw in Hnd, Hlen.
  rewrite execute_returns by (left; by rewrite Hmax).
  destruct (Swarm.agents sw) as [|a0 l] eqn:Hag.
  { destruct tasks; [done|discriminate]. }
  set (ags := a0 :: l) in *.
  assert (NoDup (SwarmSpec.outcomes isoformat format_2f world ags).*1) as Hk
    by (by rewrite swarm_outcomes_keys).
  eexists _, _, _, _. split; [reflexivity|]. split; [reflexivity|].
  cbn [Swarm._generate_summary snd Swarm.successful Swarm.failed
       Swarm.total_agents Swarm.agents Swarm.with_agents Swarm.results
       Swarm.swarm].
  rewrite (insert_all_perm _ Hk _ (swarm_outcomes_perm _ _ _ _ _ (Hp ags))).
  rewrite insert_all_size by done.
  unfold SwarmSpec.outcomes at 2. rewrite !length_fmap, Hlen.
  split; [done|]. split; [lia|].
  rewrite exit_code_zero, all_values_distinct by done.
  rewrite Forall_fmap, Forall_forall. unfold SwarmSpec.outcomes. split.
  - intros H a Ha. apply succeeded_completed. apply (H (Swarm.name a)).
    apply list_elem_of_fmap. by exists a.
  - intros H k v (a & [= -> ->] & Ha)%list_elem_of_fmap.
    apply succeeded_completed. by apply H.
Qed.

Lemma quick_mode_accounts_for_every_agent_witness :
  ∃ code e path s,
    Swarm.main pretty pretty true "/ws" 4 "20250101_120000"
      (Swarm.Quick ["check syntax"; "run tests"; "update docs"]%string
         "--allow-all-tools") Scenario.world reverse
    = (code, Some e)
    ∧ Swarm.summary e = Some (path, s)
    ∧ Swarm.successful s + Swarm.failed s = Swarm.total_agents s.
Proof.
  destruct (quick_mode_accounts_for_every_agent pretty pretty "/ws" 4
              "20250101_120000"
              ["check syntax"; "run tests"; "update docs"]%string
              "--allow-all-tools" Scenario.world reverse
              ltac:(done) ltac:(done) reverse_Permutation)
    as (code & e & path & s & E & Hs & _ & Hsum & _).
  exists code, e, path, s. split; [exact E|]. split; [exact Hs|exact Hsum].
Defined.

(** X16. After [execute] every agent has run: each keeps its id, name,
    task and log file and has a terminal status; the summary lists the
    agents once each, in spawn order, with that status (one of
    [completed], [failed], [timeout], [error]), and its total is the number
    of agents. *)
Theorem execute_leaves_every_agent_terminal isoformat format_2f sw world
    (as_completed : list Swarm.Agent → list Swarm.Agent) :
  0 < Swarm.max_agents sw → Swarm.agents sw ≠ [] →
  ∃ e path s,
    Swarm.execute isoformat format_2f sw world as_completed = Ok e
    ∧ Swarm.summary e = Some (path, s)
    ∧ path = Swarm.results_dir sw +:+ "/summary.json"
    ∧ Swarm.total_agents s = Z.of_nat (length (Swarm.agents sw))
    ∧ Forall2 (λ a a', Swarm.agent_id a' = Swarm.agent_id a
                       ∧ Swarm.name a' = Swarm.name a
                       ∧ Swarm.task a' = Swarm.task a
                       ∧ Swarm.log_file a' = Swarm.log_file a
                       ∧ SwarmMore.terminal (Swarm.status a') = true)
        (Swarm.agents sw) (Swarm.agents (Swarm.swarm e))
    ∧ Forall2 (λ a rec, Swarm.r_id rec = Swarm.agent_id a
                        ∧ Swarm.r_name rec = Swarm.name a
                        ∧ Swarm.r_task rec = Swarm.task a
                        ∧ Swarm.r_log_file rec = Swarm.log_file a
                        ∧ Swarm.r_status rec
                          ∈ ["completed"; "failed"; "timeout"; "error"]%string)
        (Swarm.agents sw) (Swarm.s_agents s).
Proof.
  intros Hm Hne. rewrite execute_returns by (by left).
  destruct (Swarm.agents sw) as [|a0 l] eqn:Hag; [done|].
  set (ags := a0 :: l) in *.
  eexists _, _, _. split; [reflexivity|]. split; [reflexivity|].
  cbn [Swarm._generate_summary fst snd Swarm.total_agents Swarm.agents
       Swarm.with_agents Swarm.swarm Swarm.s_agents Swarm.results_dir].
  split; [done|]. split; [by rewrite length_fmap|]. split.
  - apply Forall2_fmap_r, Forall_Forall2_diag, Forall_forall. intros a _.
    by destruct (after_fields isoformat format_2f world a)
      as (? & ? & ? & _ & _ & ? & ? & _).
  - rewrite <-list_fmap_compose.
    apply Forall2_fmap_r, Forall_Forall2_diag, Forall_forall. intros a _.
    destruct (after_fields isoformat format_2f world a)
      as (Hid & Hn & Ht & _ & _ & Hl & Hterm & _).
    simpl. unfold Swarm.agent_record. cbn [Swarm.r_id Swarm.r_name Swarm.r_task
      Swarm.r_log_file Swarm.r_status].
    split; [done|]. split; [done|]. split; [done|]. split; [done|].
    destruct (Swarm.status (SwarmSpec.after isoformat format_2f world a));
      try done; simpl; set_solver.
Qed.

Lemma execute_leaves_every_agent_terminal_witness :
  ∃ e path s,
    Swarm.execute pretty pretty Scenario.quick_swarm Scenario.world id = Ok e
    ∧ Swarm.summary e = Some (path, s)
    ∧ Swarm.total_agents s = 3.
Proof.
  destruct (execute_leaves_every_agent_terminal pretty pretty
              Scenario.quick_swarm Scenario.world id ltac:(done) ltac:(done))
    as (e & path & s & E & Hs & _ & Ht & _).
  exists e, path, s. split; [exact E|]. split; [exact Hs|exact Ht].
Defined.


Section SwarmErrors.
Import Swarm SwarmMore.

Lemma config_entry_None c :
  config_entry c = None ↔ ac_name c = None ∨ ac_task c = None.
Proof.
  unfold config_entry. destruct (ac_name c), (ac_task c); simpl; split;
    intros H; try done; try (by left); try (by right); by destruct H.
Qed.

Lemma spawn_all_nonempty sw es :
  es ≠ [] → agents (spawn_all sw es) ≠ [].
Proof.
  intros Hes. destruct (spawn_all_agents sw es) as [-> _].
  destruct es as [|e es]; [done|]. by destruct (agents sw).
Qed.

Lemma execute_no_pool isoformat format_2f sw world as_completed :
  agents sw ≠ [] → max_agents sw ≤ 0 →
  execute isoformat format_2f sw world as_completed
  = Raise (ValueError "max_workers must be greater than 0").
Proof.
  intros Hne Hm. unfold execute, ThreadPoolExecutor.
  destruct (agents sw); [done|].
  by destruct (Z.leb_spec (max_agents sw) 0); [|lia].
Qed.
End SwarmErrors.

(** X18. [parallel-agents] turns every failure before the run into exit
    code 1 with nothing executed: a configuration entry without [name] or
    [task], wherever it stands in the list, and a pool size of zero or less
    when there is an agent to run. An empty configuration is no failure:
    it ends with exit code 0, whatever the pool size, and no summary is
    written. *)
Theorem swarm_failures_before_the_run isoformat format_2f ws m ts world
    (as_completed : list Swarm.Agent → list Swarm.Agent) :
  (∀ configs,
     Exists (λ c, Swarm.ac_name c = None ∨ Swarm.ac_task c = None) configs →
     Swarm.main isoformat format_2f true ws m ts (Swarm.FromConfig configs)
       world as_completed
     = (1, None))
  ∧ (∀ tasks approval,
       tasks ≠ [] → m ≤ 0 →
       Swarm.main isoformat format_2f true ws m ts (Swarm.Quick tasks approval)
         world as_completed
       = (1, None))
  ∧ (∀ entries,
       entries ≠ [] → m ≤ 0 →
       Swarm.main isoformat format_2f true ws m ts
         (Swarm.FromConfig (SwarmMore.config_of <$> entries)) world as_completed
       = (1, None))
  ∧ Swarm.main isoformat format_2f true ws m ts (Swarm.FromConfig []) world
      as_completed
    = (0, Some {| Swarm.results := ∅;
                  Swarm.swarm := Swarm.AgentSwarm_init ws m ts;
                  Swarm.summary := None;
                  Swarm.logs := [] |}).
Proof.
  split; [|split; [|split; [|done]]].
  - intros configs Hex. unfold Swarm.main. cbn [negb].
    pose proof (spawn_configs_entries (Swarm.AgentSwarm_init ws m ts) configs)
      as H.
    assert (mapM SwarmMore.config_entry configs = None) as E.
    { apply mapM_None. eapply Exists_impl; [exact Hex|].
      intros c. apply config_entry_None. }
    rewrite E in H. destruct H as [e ->]. done.
  - intros tasks approval Hne Hm. unfold Swarm.main, Swarm.execute_and_exit.
    cbn [negb]. rewrite execute_no_pool; [done| |].
    + rewrite spawn_quick_spawn_all. apply spawn_all_nonempty.
      by destruct tasks.
    + rewrite spawn_quick_spawn_all.
      by destruct (spawn_all_agents (Swarm.AgentSwarm_init ws m ts)
                     (imap (λ (i : nat) task,
                              ("agent-" +:+ pretty i, task, Some approval)) tasks))
        as (_ & _ & -> & _).
  - intros entries Hne Hm. unfold Swarm.main, Swarm.execute_and_exit.
    cbn [negb].
    pose proof (spawn_configs_entries (Swarm.AgentSwarm_init ws m ts)
                  (SwarmMore.config_of <$> entries)) as H.
    assert (mapM SwarmMore.config_entry (SwarmMore.config_of <$> entries)
            = Some entries) as E.
    { apply mapM_fmap_Some. by intros [[n t] a]. }
    rewrite E in H. rewrite H. rewrite execute_no_pool; [done| |].
    + by apply spawn_all_nonempty.
    + by destruct (spawn_all_agents (Swarm.AgentSwarm_init ws m ts) entries)
        as (_ & _ & -> & _).
Qed.

Lemma swarm_failures_before_the_run_witness :
  Swarm.main pretty pretty true "/ws" 4 "20250101_120000"
    (Swarm.FromConfig
       [Scenario.config "fix" "fix the parser";
        {| Swarm.ac_name := Some "lint"%string; Swarm.ac_task := None;
           Swarm.ac_approval := None |}])
    Scenario.world id
  = (1, None)
  ∧ Swarm.main pretty pretty true "/ws" 0 "20250101_120000"
      (Swarm.Quick ["check syntax"]%string "--allow-all-tools")
      Scenario.world id
    = (1, None).
Proof.
  split.
  - apply (proj1 (swarm_failures_before_the_run pretty pretty "/ws" 4
                    "20250101_120000" Scenario.world id)).
    apply Exists_cons_tl, Exists_cons_hd. by right.
  - by apply (proj1 (proj2 (swarm_failures_before_the_run pretty pretty "/ws" 0
                              "20250101_120000" Scenario.world id))).
Defined.

(** X19. In the task runner a pool size of zero or less is fatal in
    parallel mode only: the run ends with an uncaught [ValueError] before
    any task is dispatched, even when there is no task to run; in
    sequential mode the pool size plays no part. *)
Theorem runner_pool_size isoformat r data tasks workflows ids
    stop_on_failure max_workers max_workers' world
    (as_completed : list Runner.Job → list Runner.Job) :
  Runner.load_tasks_from_file data = Ok (tasks, workflows) →
  (max_workers ≤ 0 →
   Runner.main isoformat true r
     (Runner.FromFile data None ids false stop_on_failure max_workers)
     world as_completed
   = (Runner.Uncaught (ValueError "max_workers must be greater than 0"), []))
  ∧ Runner.main isoformat true r
      (Runner.FromFile data None ids true stop_on_failure max_workers)
      world as_completed
    = Runner.main isoformat true r
        (Runner.FromFile data None ids true stop_on_failure max_workers')
        world as_completed.
Proof.
  intros Hload. unfold Runner.main. cbn [negb]. rewrite Hload.
  unfold Runner.select. simpl. split.
  - intros Hmw. destruct ids; simpl; by rewrite run_parallel_raises.
  - by destruct ids.
Qed.

Lemma runner_pool_size_witness :
  Runner.main pretty true Scenario.runner
    (Runner.FromFile Scenario.same_name_doc None [] false false 0)
    Scenario.world id
  = (Runner.Uncaught (ValueError "max_workers must be greater than 0"), []).
Proof.
  by apply (proj1 (runner_pool_size pretty Scenario.runner
                     Scenario.same_name_doc _ _ [] false 0 0 Scenario.world id
                     eq_refl)).
Defined.

Section Words.
Import pystr pytext.




End Words.


Section Interactive.
Import Swarm SwarmMore.

Lemma interactive_loop_lines raw rest sw k :
  accepted raw →
  interactive_loop (lines raw ++ rest) sw k
  = interactive_loop rest (spawn_all sw [entry_of raw]) (S k).
Proof.
  destruct raw as [[n t] a]. unfold accepted, entry_of, lines.
  cbn [fst snd]. intros (H1 & H2 & H3).
  cbn [app interactive_loop].
  rewrite !decide_False by done.
  destruct (pytext.strip t) as [|c t'] eqn:Et; [done|].
  cbn [pystr.truthy].
  by destruct (pytext.strip a).
Qed.

Lemma interactive_loop_entries raws rest sw k :
  Forall accepted raws →
  interactive_loop ((raws ≫= lines) ++ rest) sw k
  = interactive_loop rest (spawn_all sw (entry_of <$> raws))
      (k + length raws).
Proof.
  intros H. revert sw k.
  induction H as [|raw raws Hraw _ IH]; intros sw k.
  - simpl. by rewrite Nat.add_0_r.
  - rewrite bind_cons, <-(assoc_L (++)), interactive_loop_lines by done.
    rewrite IH. cbn [length]. by rewrite Nat.add_succ_r.
Qed.

Lemma interactive_loop_done d rest sw k :
  pytext.lower (pytext.strip d) = "done"%string →
  interactive_loop (d :: rest) sw k = Done sw k.
Proof. intros H. cbn [interactive_loop]. by rewrite decide_True. Qed.

Lemma interactive_loop_cancel d rest sw k :
  pytext.lower (pytext.strip d) = "cancel"%string →
  interactive_loop (d :: rest) sw k = Cancelled.
Proof.
  intros H. cbn [interactive_loop]. rewrite H.
  rewrite decide_False by done. by rewrite decide_True.
Qed.

Lemma spawn_configs_config_of sw entries :
  spawn_configs sw (config_of <$> entries) = Ok (spawn_all sw entries).
Proof.
  pose proof (spawn_configs_entries sw (config_of <$> entries)) as H.
  assert (mapM config_entry (config_of <$> entries) = Some entries) as E.
  { apply mapM_fmap_Some. by intros [[n t] a]. }
  by rewrite E in H.
Qed.
End Interactive.

(** X21. The [interactive] command is [from-config] on what was typed: when
    the agents entered are followed by [done] (in any case, blanks around
    it ignored), the run is the one [from-config] makes on a configuration
    that holds, for each agent, the name and task typed without the blanks
    around them, and the approval typed, or none when that line was blank.
    Lines after [done] are not read. With no agent entered before [done]
    the exit code is 0 and nothing is executed. *)
Theorem interactive_is_from_config_on_typed_entries isoformat format_2f ws m
    ts (raws : list SwarmMore.Typed) d rest world
    (as_completed : list Swarm.Agent → list Swarm.Agent) :
  Forall SwarmMore.accepted raws →
  pytext.lower (pytext.strip d) = "done"%string →
  SwarmMore.main_interactive isoformat format_2f true ws m ts
    ((raws ≫= SwarmMore.lines) ++ d :: rest) world as_completed
  = match raws with
    | [] => (0, None)
    | _ =>
        Swarm.main isoformat format_2f true ws m ts
          (Swarm.FromConfig
             (SwarmMore.config_of <$> (SwarmMore.entry_of <$> raws)))
          world as_completed
    end.
Proof.
  intros Hraws Hd. unfold SwarmMore.main_interactive, Swarm.main.
  cbn [negb].
  rewrite interactive_loop_entries, interactive_loop_done by done.
  rewrite spawn_configs_config_of.
  destruct raws as [|raw raws]; [done|].
  by rewrite decide_False.
Qed.

Lemma interactive_is_from_config_on_typed_entries_witness :
  SwarmMore.main_interactive pretty pretty true "/ws" 4 "20250101_120000"
    ["  fix "; "fix the parser"; ""; "lint"; " run the linter ";
     "--allow-tool shell"; " DONE "; "ignored"]%string
    Scenario.world id
  = Swarm.main pretty pretty true "/ws" 4 "20250101_120000"
      (Swarm.FromConfig
         [{| Swarm.ac_name := Some "fix"%string;
             Swarm.ac_task := Some "fix the parser"%string;
             Swarm.ac_approval := None |};
          {| Swarm.ac_name := Some "lint"%string;
             Swarm.ac_task := Some "run the linter"%string;
             Swarm.ac_approval := Some "--allow-tool shell"%string |}])
      Scenario.world id.
Proof.
  apply (interactive_is_from_config_on_typed_entries pretty pretty "/ws" 4
           "20250101_120000"
           [("  fix ", "fix the parser", "");
            ("lint", " run the linter ", "--allow-tool shell")]%string
           " DONE " ["ignored"%string] Scenario.world id).
  - repeat constructor; by vm_compute.
  - reflexivity.
Defined.

(** X22. The [interactive] command executes nothing and exits with code 1
    when [cancel] is typed for a name, however many agents were entered
    before, and when the input ends before [done] is typed (the
    [EOFError] of [input] reaches the handler of [main]). *)
Theorem interactive_cancel_and_end_of_input isoformat format_2f ws m ts
    (raws : list SwarmMore.Typed) world
    (as_completed : list Swarm.Agent → list Swarm.Agent) :
  Forall SwarmMore.accepted raws →
  (∀ c rest,
     pytext.lower (pytext.strip c) = "cancel"%string →
     SwarmMore.main_interactive isoformat format_2f true ws m ts
       ((raws ≫= SwarmMore.lines) ++ c :: rest) world as_completed
     = (1, None))
  ∧ SwarmMore.main_interactive isoformat format_2f true ws m ts
      (raws ≫= SwarmMore.lines) world as_completed
    = (1, None)
  ∧ (∀ n t,
       pytext.lower (pytext.strip n) ≠ "done"%string →
       SwarmMore.main_interactive isoformat format_2f true ws m ts
         ((raws ≫= SwarmMore.lines) ++ [n]) world as_completed
       = (1, None)
       ∧ SwarmMore.main_interactive isoformat format_2f true ws m ts
           ((raws ≫= SwarmMore.lines) ++ [n; t]) world as_completed
         = (1, None)).
Proof.
  intros Hraws. unfold SwarmMore.main_interactive. cbn [negb].
  split; [|split].
  - intros c rest Hc.
    by rewrite interactive_loop_entries, interactive_loop_cancel.
  - rewrite <-(right_id_L [] (++) (raws ≫= SwarmMore.lines)).
    by rewrite interactive_loop_entries.
  - intros n t Hn.
    rewrite !interactive_loop_entries by done.
    cbn [SwarmMore.interactive_loop].
    destruct (decide (pytext.lower (pytext.strip n) = "done"%string));
      [done|].
    destruct (decide (pytext.lower (pytext.strip n) = "cancel"%string));
      [by split|].
    split; [done|]. by destruct (pystr.truthy (pytext.strip t)).
Qed.

Lemma interactive_cancel_and_end_of_input_witness :
  SwarmMore.main_interactive pretty pretty true "/ws" 4 "20250101_120000"
    ["fix"; "fix the parser"; ""; "Cancel"; "done"]%string Scenario.world id
  = (1, None)
  ∧ SwarmMore.main_interactive pretty pretty true "/ws" 4 "20250101_120000"
      ["fix"; "fix the parser"; ""]%string Scenario.world id
    = (1, None).
Proof.
  assert (Forall SwarmMore.accepted [("fix", "fix the parser", "")]%string)
    as H by (repeat constructor; by vm_compute).
  split.
  - by apply (proj1 (interactive_cancel_and_end_of_input pretty pretty "/ws" 4
                       "20250101_120000" _ Scenario.world id H)
                "Cancel"%string ["done"%string]).
  - apply (proj1 (proj2 (interactive_cancel_and_end_of_input pretty pretty
                           "/ws" 4 "20250101_120000" _ Scenario.world id H))).
Defined.

Section SwarmFiles.
Import Swarm SwarmSpec SwarmMore.



End SwarmFiles.


